(** * Image/caption pairing of [1_chunking.py]

    A shallow embedding of [process_image_with_captions] and
    [process_tables_with_descriptions], and the properties of the
    specification that concern them.

    Python objects that the functions build ([image_data], [error_data])
    live in a heap of dictionaries addressed by location, so that "the
    same dict appended to two lists" is a statement about locations.
    Exceptions are an explicit result, printing appends to a log. *)

From stdpp Require Import base strings gmap list pretty.

Module Chunking.

(** ** Python values and exceptions *)

(** The values held by the attributes read and by the dicts built:
    [None] or a [str]. *)
Inductive value :=
  | PyNone
  | PyStr (s : string).

#[global] Instance value_eq_dec : EqDecision value.
Proof. solve_decision. Defined.

(** [str(v)], as an f-string formats a value. *)
Definition py_str (v : value) : string :=
  match v with
  | PyNone => "None"
  | PyStr s => s
  end.

(** [not s] for the result of [os.getenv]: [None] and the empty string
    are falsy. *)
Definition py_not (s : option string) : bool :=
  match s with
  | None => true
  | Some EmptyString => true
  | Some (String _ _) => false
  end.

Inductive exn :=
  | ValueError (msg : string)
  | AttributeError (class_name attribute : string)
  | IndexError.

Inductive result (A : Type) :=
  | Return (a : A)
  | Raise (e : exn).
Arguments Return {A} a.
Arguments Raise {A} e.

#[global] Instance result_ret : MRet result := @Return.
#[global] Instance result_bind : MBind result := fun A B f r =>
  match r with
  | Return a => f a
  | Raise e => Raise e
  end.

(** ** Document elements *)

(** The classes of [unstructured.documents.elements] that the code tests
    with [isinstance]; none of them is a subclass of another. *)
Inductive element_class := Image | FigureCaption | Table | Other.

#[global] Instance element_class_eq_dec : EqDecision element_class.
Proof. solve_decision. Defined.

Definition class_name (c : element_class) : string :=
  match c with
  | Image => "Image"
  | FigureCaption => "FigureCaption"
  | Table => "Table"
  | Other => "Element"
  end.

(** An attribute is [None] here when the object does not have it
    ([hasattr] is false and reading it raises [AttributeError]), and
    [Some v] when it has it with value [v]. *)
Record ElementMetadata := {
  image_base64 : option value;
  filename : option value;
}.

Record Element := {
  element_class_of : element_class;
  text : option value;
  metadata : option ElementMetadata;
}.

Definition isinstance (chunk : Element) (c : element_class) : bool :=
  bool_decide (element_class_of chunk = c).

Definition hasattr {A} (attribute : option A) : bool :=
  match attribute with
  | Some _ => true
  | None => false
  end.

Definition getattr {A} (cls name : string) (attribute : option A) : result A :=
  match attribute with
  | Some a => Return a
  | None => Raise (AttributeError cls name)
  end.

(** [raw_chunks[i]] *)
Definition subscript (raw_chunks : list Element) (i : nat) : result Element :=
  match raw_chunks !! i with
  | Some chunk => Return chunk
  | None => Raise IndexError
  end.

(** ** Memory: the heap of dicts and the standard output *)

Definition loc := nat.

Record memory := {
  heap : list (gmap string value);
  stdout : list string;
}.

Definition M (A : Type) : Type := memory -> result A * memory.

#[global] Instance M_ret : MRet M := fun A a m => (Return a, m).
#[global] Instance M_bind : MBind M := fun A B f c m =>
  match c m with
  | (Return a, m') => f a m'
  | (Raise e, m') => (Raise e, m')
  end.

Definition raise {A} (e : exn) : M A := fun m => (Raise e, m).

Definition lift {A} (r : result A) : M A := fun m => (r, m).

(** A dict display [{...}] allocates a new dict. *)
Definition alloc (d : gmap string value) : M loc := fun m =>
  (Return (length (heap m)), {| heap := heap m ++ [d]; stdout := stdout m |}).

(** [d[key] = v] on the dict at [l]. *)
Definition setitem (l : loc) (key : string) (v : value) : M unit := fun m =>
  (Return tt, {| heap := alter (fun d => <[key := v]> d) l (heap m); stdout := stdout m |}).

Definition print (line : string) : M unit := fun m =>
  (Return tt, {| heap := heap m; stdout := stdout m ++ [line] |}).

(** ** [process_image_with_captions] *)

(** The line feed of the prompt's [\n]. *)
Definition nl : string := Eval cbv in String (Ascii.ascii_of_nat 10) EmptyString.

Definition no_caption : value := PyStr "No caption available".

Definition config_error : exn :=
  ValueError "GEMINI_API_KEY is not set in the environment variables.".

Definition gemini_error_message : value :=
  PyStr "Error generating description with Gemini.".

(** Lines 34-37: the caption of the image at [idx]. *)
Definition next_is_caption (raw_chunks : list Element) (idx : nat) : bool :=
  bool_decide (idx + 1 < length raw_chunks) &&
  match raw_chunks !! (idx + 1) with
  | Some next => isinstance next FigureCaption
  | None => false
  end.

Definition caption_of (raw_chunks : list Element) (idx : nat) : result value :=
  if next_is_caption raw_chunks idx then
    next ← subscript raw_chunks (idx + 1);
    getattr (class_name (element_class_of next)) "text" (text next)
  else Return no_caption.

(** [chunk.text if hasattr(chunk, "text") else default] *)
Definition text_or (chunk : Element) (default : value) : value :=
  match text chunk with
  | Some t => t
  | None => default
  end.

(** Lines 40-47: the dict display of [image_data], its values evaluated
    in order. *)
Definition image_data_display (chunk : Element) (caption : value)
  : result (gmap string value) :=
  let image_text := text_or chunk (PyStr EmptyString) in
  md ← getattr (class_name (element_class_of chunk)) "metadata" (metadata chunk);
  base64_image ← getattr "ElementMetadata" "image_base64" (image_base64 md);
  let content := text_or chunk (PyStr EmptyString) in
  file ← (if hasattr (metadata chunk) then
            md ← getattr (class_name (element_class_of chunk)) "metadata" (metadata chunk);
            getattr "ElementMetadata" "filename" (filename md)
          else Return (PyStr EmptyString));
  Return (<["caption" := caption]>
         (<["image_text" := image_text]>
         (<["base64_image" := base64_image]>
         (<["content" := content]>
         (<["content_type" := PyStr "image"]>
         (<["filename" := file]> ∅)))))).

(** Lines 49-52. *)
Definition error_data_display : gmap string value :=
  <["error" := PyNone]> (<["error_message" := PyNone]> ∅).

(** Lines 62-76: the prompt. *)
Definition prompt (caption : value) (chunk : Element) : string :=
  "Generate a comprehensive and detailed description of this image from a technical document abot Retrieval-Augemnted generation. " +:+ nl +:+ nl +:+
  "CONTEXT INFROMATION:" +:+ nl +:+
  "- Caption : " +:+ py_str caption +:+ nl +:+
  "- Text Extracted from image : " +:+ py_str (text_or chunk (PyStr "No text")) +:+ nl +:+ nl +:+
  "DESCRIPTION REQUIREMENTS:" +:+ nl +:+
  "1. begin with a clear overview of what the image shows (diagram, chart, architecture, etc.)" +:+ nl +:+
  "2. If it's a diagram or flowchart : describe components, connections, data flow direction, and system architecture" +:+ nl +:+
  "3. If it's a chart or flowchart : explain axes, trends, key data points and significance" +:+ nl +:+
  "4. Explain technical terminology and abbreviations that appear in the image" +:+ nl +:+
  "5. Interpret how this visual relates to RAG concepts and implementation" +:+ nl +:+
  "6. Include any numerical data, performance metrics, or comparative results shown" +:+ nl +:+
  "7. target length : 150-300 words for complex diagrams, 100-150 words for simple images" +:+ nl +:+ nl +:+
  "Focus on providing information that would be valuable in a technical context for someone implementing or researching RAG systems.".

(** What the [try] block of lines 56-82 comes to: the text of the
    response, or the message [str(e)] of the exception caught. *)
Inductive outcome :=
  | Response (response_text : string)
  | Caught (message : string).

Definition str_exn (e : exn) : string :=
  match e with
  | ValueError msg => msg
  | AttributeError cls attribute =>
      "'" +:+ cls +:+ "' object has no attribute '" +:+ attribute +:+ "'"
  | IndexError => "list index out of range"
  end.

(** The collaborators outside the repository.

    - [b64decode] is [base64.b64decode]: the decoded bytes, or the message
      of the exception it raises.
    - [generate_content] is the remote model (lines 60 and 78-82, up to
      [response.text]): the text of the response, or the message of the
      exception raised. A call handles each position at most once, so the
      answers of the service during one call are a function of the
      position and of the request.
    - [GEMINI_API_KEY] is [os.getenv("GEMINI_API_KEY")] after
      [load_dotenv()]. *)
Record Environment := {
  b64decode : value -> string + string;
  generate_content : nat -> string -> string -> outcome;
  GEMINI_API_KEY : option string;
}.

Section WithEnvironment.

Variable env : Environment.

(** Lines 56-82, up to the assignment of the response text. *)
Definition try_describe (idx : nat) (chunk : Element) (caption : value) : outcome :=
  match getattr (class_name (element_class_of chunk)) "metadata" (metadata chunk)
          ≫= (fun md => getattr "ElementMetadata" "image_base64" (image_base64 md)) with
  | Raise e => Caught (str_exn e)
  | Return payload =>
      match b64decode env payload with
      | inr message => Caught message
      | inl image_binary => generate_content env idx (prompt caption chunk) image_binary
      end
  end.

(** Lines 21-25. *)
Definition configure_gemini (use_gemini : bool) : M unit :=
  if use_gemini then
    if py_not (GEMINI_API_KEY env) then raise config_error else mret tt
  else mret tt.

(** Lines 32-93: the body of the loop. *)
Definition process_chunk (raw_chunks : list Element) (use_gemini : bool)
    (idx : nat) (chunk : Element)
    (processed_images encountered_errors : list loc) : M (list loc * list loc) :=
  if isinstance chunk Image then
    caption ← lift (caption_of raw_chunks idx);
    display ← lift (image_data_display chunk caption);
    image_data ← alloc display;
    error_data ← alloc error_data_display;
    encountered_errors ←
      (if use_gemini then
         match try_describe idx chunk caption with
         | Response response_text =>
             setitem image_data "content" (PyStr response_text);;
             mret encountered_errors
         | Caught e =>
             print ("Warning: Error generating description: " +:+ e);;
             setitem error_data "error" (PyStr e);;
             setitem error_data "error_message" gemini_error_message;;
             mret (encountered_errors ++ [error_data])
         end
       else mret encountered_errors);
    mret (processed_images ++ [error_data], encountered_errors)
  else mret (processed_images, encountered_errors).

(** Line 31: [for idx, chunk in enumerate(raw_chunks)], from position
    [idx] on. *)
Fixpoint for_loop (raw_chunks : list Element) (use_gemini : bool)
    (idx : nat) (rest : list Element)
    (processed_images encountered_errors : list loc) : M (list loc * list loc) :=
  match rest with
  | [] => mret (processed_images, encountered_errors)
  | chunk :: rest' =>
      '(processed_images, encountered_errors) ←
        process_chunk raw_chunks use_gemini idx chunk processed_images encountered_errors;
      for_loop raw_chunks use_gemini (S idx) rest' processed_images encountered_errors
  end.

Definition process_image_with_captions (raw_chunks : list Element) (use_gemini : bool)
  : M (list loc * list loc) :=
  configure_gemini use_gemini;;
  '(processed_images, encountered_errors) ←
    for_loop raw_chunks use_gemini 0 raw_chunks [] [];
  print ("Processed " +:+ pretty (length processed_images) +:+
         " images with captions and descriptions");;
  print ("Errors encountered : " +:+ pretty (length encountered_errors));;
  mret (processed_images, encountered_errors).

(** ** [process_tables_with_descriptions] (lines 100-116) *)

(** The function ends after the configuration: it returns [None]. *)
Definition process_tables_with_descriptions (raw_chunks : list Element)
    (use_gemini use_ollama : bool) : M value :=
  configure_gemini use_gemini;;
  mret PyNone.

(** ** The trace of a call

    What an iteration at an Image leaves behind: the two dicts it has
    allocated, as they stand when it ends, and the message of the
    exception its [try] block caught. The loop is characterised below as
    the sequence of these. *)

Record image_run := {
  run_image_data : gmap string value;
  run_error_data : gmap string value;
  run_caught : option string;
}.

(** The [try] block runs only under [use_gemini]. *)
Definition attempt (use_gemini : bool) (idx : nat) (chunk : Element) (caption : value)
  : option outcome :=
  if use_gemini then Some (try_describe idx chunk caption) else None.

Definition described (display : gmap string value) (a : option outcome)
  : gmap string value :=
  match a with
  | Some (Response response_text) => <["content" := PyStr response_text]> display
  | _ => display
  end.

Definition reported (a : option outcome) : gmap string value :=
  match a with
  | Some (Caught e) =>
      <["error_message" := gemini_error_message]> (<["error" := PyStr e]> error_data_display)
  | _ => error_data_display
  end.

Definition caught (a : option outcome) : option string :=
  match a with
  | Some (Caught e) => Some e
  | _ => None
  end.

Definition iteration (raw_chunks : list Element) (use_gemini : bool)
    (idx : nat) (chunk : Element) : option (result image_run) :=
  if isinstance chunk Image then
    Some (caption ← caption_of raw_chunks idx;
          display ← image_data_display chunk caption;
          let a := attempt use_gemini idx chunk caption in
          Return {| run_image_data := described display a;
                    run_error_data := reported a;
                    run_caught := caught a |})
  else None.

(** The runs of the iterations from [idx] on, up to the first that
    raises. *)
Fixpoint iterations (raw_chunks : list Element) (use_gemini : bool)
    (idx : nat) (rest : list Element) : list image_run * option exn :=
  match rest with
  | [] => ([], None)
  | chunk :: rest' =>
      match iteration raw_chunks use_gemini idx chunk with
      | None => iterations raw_chunks use_gemini (S idx) rest'
      | Some (Raise e) => ([], Some e)
      | Some (Return r) =>
          let '(rs, e) := iterations raw_chunks use_gemini (S idx) rest' in
          (r :: rs, e)
      end
  end.

End WithEnvironment.

(** The heap that a sequence of runs appends, the locations it appends to
    [processed_images] and to [encountered_errors] when the heap had
    [base] dicts before, and the warnings it prints. *)
Fixpoint run_dicts (rs : list image_run) : list (gmap string value) :=
  match rs with
  | [] => []
  | r :: rs' => run_image_data r :: run_error_data r :: run_dicts rs'
  end.

Fixpoint entry_locs (base : nat) (rs : list image_run) : list loc :=
  match rs with
  | [] => []
  | _ :: rs' => S base :: entry_locs (S (S base)) rs'
  end.

Fixpoint error_locs (base : nat) (rs : list image_run) : list loc :=
  match rs with
  | [] => []
  | r :: rs' =>
      match run_caught r with
      | Some _ => S base :: error_locs (S (S base)) rs'
      | None => error_locs (S (S base)) rs'
      end
  end.

Fixpoint warnings (rs : list image_run) : list string :=
  match rs with
  | [] => []
  | r :: rs' =>
      match run_caught r with
      | Some e => ("Warning: Error generating description: " +:+ e) :: warnings rs'
      | None => warnings rs'
      end
  end.

(** The number of elements classified as Image. *)
Definition count_images (raw_chunks : list Element) : nat :=
  length (filter (fun chunk => element_class_of chunk = Image) raw_chunks).

(** A dict of the shape of [image_data], and one of the shape of
    [error_data]. *)
Definition is_image_record (d : gmap string value) : Prop :=
  dom d = {[ "caption"; "image_text"; "base64_image"; "content"; "content_type"; "filename" ]}
  ∧ d !! "content_type" = Some (PyStr "image").

Definition is_error_record (d : gmap string value) : Prop :=
  dom d = {[ "error"; "error_message" ]}.

(** Where a call started from memory [m] puts the two dicts of the
    Image at position [i]: each earlier Image has taken two locations. *)
Definition image_data_loc (m : memory) (raw_chunks : list Element) (i : nat) : loc :=
  length (heap m) + 2 * count_images (take i raw_chunks).

Definition error_data_loc (m : memory) (raw_chunks : list Element) (i : nat) : loc :=
  length (heap m) + 2 * count_images (take i raw_chunks) + 1.

#[global] Instance is_image_record_dec d : Decision (is_image_record d).
Proof. unfold is_image_record. apply _. Defined.

(** The elements on which no attribute that the loop reads is missing:
    an Image has a [metadata] with [image_base64] and [filename], and a
    FigureCaption that follows an Image has a [text]. *)
Definition well_formed (raw_chunks : list Element) : Prop :=
  ∀ i chunk, raw_chunks !! i = Some chunk → element_class_of chunk = Image →
    (∃ md, metadata chunk = Some md ∧
           is_Some (image_base64 md) ∧ is_Some (filename md)) ∧
    (∀ next, raw_chunks !! (i + 1) = Some next →
       element_class_of next = FigureCaption → is_Some (text next)).

(** ** Sample inputs *)

Definition empty_memory : memory := {| heap := []; stdout := [] |}.

(** [Image(text="fig1", base64="AAAA")], no file name set. *)
Definition figure1 : Element :=
  {| element_class_of := Image;
     text := Some (PyStr "fig1");
     metadata := Some {| image_base64 := Some (PyStr "AAAA"); filename := Some PyNone |} |}.

(** [FigureCaption(text="Figure 1: architecture")] *)
Definition figure1_caption : Element :=
  {| element_class_of := FigureCaption;
     text := Some (PyStr "Figure 1: architecture");
     metadata := Some {| image_base64 := Some PyNone; filename := Some PyNone |} |}.

Definition a_table : Element :=
  {| element_class_of := Table;
     text := Some (PyStr "model | score");
     metadata := Some {| image_base64 := Some PyNone; filename := Some PyNone |} |}.

(** An Image object that has a [text] but no [metadata] attribute. *)
Definition image_without_metadata : Element :=
  {| element_class_of := Image;
     text := Some (PyStr "fig1");
     metadata := None |}.

(** A decoder that accepts every [str], and a service that refuses the
    request for position 0 and answers every other. *)
Definition sample_b64decode (payload : value) : string + string :=
  match payload with
  | PyStr s => inl s
  | PyNone => inr "argument should be a bytes-like object or ASCII string, not 'NoneType'"
  end.

Definition flaky_service (idx : nat) (request image_binary : string) : outcome :=
  match idx with
  | 0 => Caught "503 Service Unavailable"
  | S _ => Response "A block diagram of the retrieval pipeline."
  end.

(** A configured environment with the flaky service, and a document: a
    figure with its caption, a table, and the same figure again, last. *)
Definition sample_env : Environment :=
  {| b64decode := sample_b64decode;
     generate_content := flaky_service;
     GEMINI_API_KEY := Some "sample-key" |}.

Definition sample_chunks : list Element :=
  [figure1; figure1_caption; a_table; figure1].



(** The memory in which the call on the sample document ends. *)
Definition sample_memory : memory :=
  snd (process_image_with_captions sample_env sample_chunks true empty_memory).

(** The [image_data] of [figure1] under its caption, as displayed. *)
Definition figure1_display : gmap string value :=
  <["caption" := PyStr "Figure 1: architecture"]>
  (<["image_text" := PyStr "fig1"]>
  (<["base64_image" := PyStr "AAAA"]>
  (<["content" := PyStr "fig1"]>
  (<["content_type" := PyStr "image"]>
  (<["filename" := PyNone]> ∅))))).

(** The environment of a decoder, a service and a value of the key. *)
Definition with_key (decode : value -> string + string)
    (service : nat -> string -> string -> outcome) (key : option string) : Environment :=
  {| b64decode := decode; generate_content := service; GEMINI_API_KEY := key |}.

(** ** Properties *)

Section Properties.

Variable env : Environment.

(** *** The loop as its trace *)

Lemma alter_last_but_one {A} (f : A -> A) (h : list A) (d d' : A) :
  alter f (length h) ((h ++ [d]) ++ [d']) = h ++ [f d; d'].
Proof.
  rewrite <- (assoc_L (++) h), alter_app_r_alt by lia.
  by rewrite Nat.sub_diag.
Qed.

Lemma alter_last {A} (f : A -> A) (h : list A) (d d' : A) :
  alter f (length (h ++ [d])) ((h ++ [d]) ++ [d']) = h ++ [d; f d'].
Proof.
  rewrite alter_app_r_alt by lia.
  by rewrite Nat.sub_diag, <- (assoc_L (++) h).
Qed.

Lemma length_snoc {A} (h : list A) (d : A) : length (h ++ [d]) = S (length h).
Proof. rewrite length_app; cbn; lia. Qed.

Lemma process_chunk_iteration raw_chunks use_gemini idx chunk p e m :
  process_chunk env raw_chunks use_gemini idx chunk p e m =
  match iteration env raw_chunks use_gemini idx chunk with
  | None => (Return (p, e), m)
  | Some (Raise x) => (Raise x, m)
  | Some (Return r) =>
      (Return (p ++ [S (length (heap m))], e ++ error_locs (length (heap m)) [r]),
       {| heap := heap m ++ run_dicts [r]; stdout := stdout m ++ warnings [r] |})
  end.
Proof.
  unfold process_chunk, iteration.
  destruct (isinstance chunk Image); [|done].
  destruct m as [h out].
  unfold mbind, M_bind, lift; cbn.
  destruct (caption_of raw_chunks idx) as [caption|x]; cbn; [|done].
  destruct (image_data_display chunk caption) as [display|x]; cbn; [|done].
  unfold attempt, mret, M_ret.
  destruct use_gemini; cbn.
  - destruct (try_describe env idx chunk caption) as [t|msg]; cbn.
    + by rewrite alter_last_but_one, length_snoc, !app_nil_r.
    + rewrite alter_last.
      rewrite <- (alter_last (fun d => <["error_message" := gemini_error_message]> d)
                    h display (<["error" := PyStr msg]> error_data_display)).
      rewrite length_snoc.
      f_equal. f_equal.
      rewrite <- (length_snoc h display).
      rewrite <- (assoc_L (++) h). cbn. done.
  - by rewrite length_snoc, !app_nil_r, <- (assoc_L (++) h).
Qed.

Lemma for_loop_iterations raw_chunks use_gemini rest :
  ∀ idx p e m,
  for_loop env raw_chunks use_gemini idx rest p e m =
  let '(rs, x) := iterations env raw_chunks use_gemini idx rest in
  (match x with
   | None => Return (p ++ entry_locs (length (heap m)) rs,
                     e ++ error_locs (length (heap m)) rs)
   | Some x => Raise x
   end,
   {| heap := heap m ++ run_dicts rs; stdout := stdout m ++ warnings rs |}).
Proof.
  induction rest as [|chunk rest IH]; intros idx p e m.
  - cbn. destruct m as [h out]; cbn. by rewrite !app_nil_r.
  - cbn [for_loop iterations].
    unfold mbind at 1, M_bind at 1.
    rewrite process_chunk_iteration.
    destruct (iteration env raw_chunks use_gemini idx chunk) as [[r|x]|].
    + rewrite IH.
      destruct (iterations env raw_chunks use_gemini (S idx) rest) as [rs x].
      cbn [heap stdout].
      replace (length (heap m ++ run_dicts [r])) with (S (S (length (heap m))))
        by (rewrite length_app; cbn; lia).
      rewrite <- !(assoc_L (++)).
      f_equal.
      * cbn. destruct (run_caught r); cbn; by rewrite ?app_nil_r.
      * f_equal. cbn. by destruct (run_caught r).
    + destruct m as [h out]; cbn. by rewrite !app_nil_r.
    + apply IH.
Qed.

(** The whole function, as its trace. *)
Lemma process_image_with_captions_trace raw_chunks use_gemini m :
  process_image_with_captions env raw_chunks use_gemini m =
  if use_gemini && py_not (GEMINI_API_KEY env) then (Raise config_error, m)
  else
    let '(rs, x) := iterations env raw_chunks use_gemini 0 raw_chunks in
    let p := entry_locs (length (heap m)) rs in
    let e := error_locs (length (heap m)) rs in
    match x with
    | None =>
        (Return (p, e),
         {| heap := heap m ++ run_dicts rs;
            stdout := stdout m ++ warnings rs ++
              [ "Processed " +:+ pretty (length p) +:+ " images with captions and descriptions";
                "Errors encountered : " +:+ pretty (length e) ] |})
    | Some x =>
        (Raise x, {| heap := heap m ++ run_dicts rs; stdout := stdout m ++ warnings rs |})
    end.
Proof.
  unfold process_image_with_captions, configure_gemini.
  assert (Hloop : ∀ m0 : memory,
    ('(processed_images, encountered_errors) ←
        for_loop env raw_chunks use_gemini 0 raw_chunks [] [];
      print ("Processed " +:+ pretty (length processed_images) +:+
             " images with captions and descriptions");;
      print ("Errors encountered : " +:+ pretty (length encountered_errors));;
      mret (processed_images, encountered_errors)) m0 =
    let '(rs, x) := iterations env raw_chunks use_gemini 0 raw_chunks in
    let p := entry_locs (length (heap m0)) rs in
    let e := error_locs (length (heap m0)) rs in
    match x with
    | None =>
        (Return (p, e),
         {| heap := heap m0 ++ run_dicts rs;
            stdout := stdout m0 ++ warnings rs ++
              [ "Processed " +:+ pretty (length p) +:+ " images with captions and descriptions";
                "Errors encountered : " +:+ pretty (length e) ] |})
    | Some x =>
        (Raise x, {| heap := heap m0 ++ run_dicts rs; stdout := stdout m0 ++ warnings rs |})
    end).
  { intros m0. unfold mbind at 1, M_bind at 1.
    rewrite for_loop_iterations.
    destruct (iterations env raw_chunks use_gemini 0 raw_chunks) as [rs [x|]]; [done|].
    unfold mbind, M_bind, print, mret, M_ret; cbn [heap stdout].
    by rewrite <- !(assoc_L (++)). }
  destruct use_gemini; cbn [andb].
  - destruct (py_not (GEMINI_API_KEY env)); [done|]. apply Hloop.
  - apply Hloop.
Qed.

(** *** Reading the trace *)

Lemma length_entry_locs rs : ∀ base, length (entry_locs base rs) = length rs.
Proof. induction rs as [|r rs IH]; intros base; cbn; [done|]. by rewrite IH. Qed.

Lemma entry_locs_lookup rs :
  ∀ base k l, entry_locs base rs !! k = Some l ↔ k < length rs ∧ l = base + 2 * k + 1.
Proof.
  induction rs as [|r rs IH]; intros base k l; cbn.
  - split; [done|]. intros [? _]; lia.
  - destruct k as [|k]; cbn.
    + split; [intros [= <-]; split; lia | intros [_ ->]; f_equal; lia].
    + rewrite IH. split; intros [? ->]; split; lia.
Qed.

Lemma length_run_dicts rs : length (run_dicts rs) = 2 * length rs.
Proof. induction rs as [|r rs IH]; cbn in *; [done|]. rewrite IH. lia. Qed.

Lemma run_dicts_lookup rs :
  ∀ k r, rs !! k = Some r →
  run_dicts rs !! (2 * k) = Some (run_image_data r) ∧
  run_dicts rs !! (2 * k + 1) = Some (run_error_data r).
Proof.
  induction rs as [|r0 rs IH]; intros k r Hk; [done|].
  destruct k as [|k]; cbn in Hk.
  - by injection Hk as ->.
  - destruct (IH k r Hk) as [H1 H2].
    replace (2 * S k) with (S (S (2 * k))) by lia.
    replace (S (S (2 * k)) + 1) with (S (S (2 * k + 1))) by lia.
    done.
Qed.

Lemma error_locs_elem rs :
  ∀ base l, l ∈ error_locs base rs ↔
    ∃ k r, rs !! k = Some r ∧ is_Some (run_caught r) ∧ l = base + 2 * k + 1.
Proof.
  induction rs as [|r0 rs IH]; intros base l; cbn.
  - split; [by intros ?%elem_of_nil | by intros (k & r & ? & _)].
  - assert (Htail : l ∈ error_locs (S (S base)) rs ↔
      ∃ k r, (r0 :: rs) !! S k = Some r ∧ is_Some (run_caught r) ∧ l = base + 2 * S k + 1).
    { rewrite IH. split; intros (k & r & Hk & Hc & ->); exists k, r; cbn; repeat split; auto; lia. }
    destruct (run_caught r0) as [msg|] eqn:Hr0.
    + rewrite elem_of_cons, Htail. split.
      * intros [->|(k & r & Hk & Hc & ->)].
        -- exists 0, r0. rewrite Hr0. repeat split; eauto; lia.
        -- by exists (S k), r.
      * intros ([|k] & r & Hk & Hc & ->).
        -- left; lia.
        -- right. by exists k, r.
    + rewrite Htail. split.
      * intros (k & r & Hk & Hc & ->). by exists (S k), r.
      * intros ([|k] & r & Hk & Hc & ->).
        -- cbn in Hk. injection Hk as <-. rewrite Hr0 in Hc. by destruct Hc.
        -- by exists k, r.
Qed.

Lemma error_locs_sublist rs : ∀ base, error_locs base rs `sublist_of` entry_locs base rs.
Proof.
  induction rs as [|r rs IH]; intros base; cbn; [done|].
  destruct (run_caught r).
  - by apply sublist_skip.
  - by apply sublist_cons.
Qed.

Lemma entry_locs_NoDup rs : ∀ base, NoDup (entry_locs base rs).
Proof.
  induction rs as [|r rs IH]; intros base; cbn; [constructor|].
  constructor; [|apply IH].
  intros (k & Hk)%list_elem_of_lookup_1.
  apply entry_locs_lookup in Hk as [_ Hk]. lia.
Qed.

Lemma count_images_cons chunk rest :
  count_images (chunk :: rest) =
  (if isinstance chunk Image then 1 else 0) + count_images rest.
Proof.
  unfold count_images, isinstance. rewrite filter_cons.
  destruct (decide (element_class_of chunk = Image)) as [H|H].
  - by rewrite bool_decide_eq_true_2.
  - by rewrite bool_decide_eq_false_2.
Qed.

Lemma isinstance_true chunk c : isinstance chunk c = true ↔ element_class_of chunk = c.
Proof. unfold isinstance. by rewrite bool_decide_eq_true. Qed.

(** A loop that ends has run one iteration for each Image, in order. *)
Lemma iterations_returned raw_chunks use_gemini rest :
  ∀ idx rs, iterations env raw_chunks use_gemini idx rest = (rs, None) →
  length rs = count_images rest ∧
  ∀ j chunk, rest !! j = Some chunk → element_class_of chunk = Image →
    ∃ r, iteration env raw_chunks use_gemini (idx + j) chunk = Some (Return r) ∧
         rs !! count_images (take j rest) = Some r.
Proof.
  induction rest as [|c rest IH]; intros idx rs Hrs; cbn in Hrs.
  - injection Hrs as <-. split; [done|]. intros j chunk Hj. by destruct j.
  - rewrite count_images_cons.
    destruct (iteration env raw_chunks use_gemini idx c) as [[r|x]|] eqn:Hit.
    + destruct (iterations env raw_chunks use_gemini (S idx) rest) as [rs' x'] eqn:Hrest.
      injection Hrs as <- ->.
      destruct (IH _ _ Hrest) as [Hlen Hpos].
      assert (Hc : isinstance c Image = true).
      { unfold iteration in Hit. by destruct (isinstance c Image). }
      rewrite Hc. split; [cbn; by rewrite Hlen|].
      intros [|j] chunk Hj Himg; cbn in Hj.
      * injection Hj as <-. exists r. by rewrite Nat.add_0_r.
      * destruct (Hpos j chunk Hj Himg) as (r' & Hr' & Hlook).
        exists r'. replace (idx + S j) with (S idx + j) by lia.
        split; [done|]. cbn [take]. by rewrite count_images_cons, Hc.
    + done.
    + destruct (IH _ _ Hrs) as [Hlen Hpos].
      assert (Hc : isinstance c Image = false).
      { unfold iteration in Hit. by destruct (isinstance c Image). }
      rewrite Hc. split; [done|].
      intros [|j] chunk Hj Himg; cbn in Hj.
      * injection Hj as <-. apply isinstance_true in Himg. congruence.
      * destruct (Hpos j chunk Hj Himg) as (r' & Hr' & Hlook).
        exists r'. replace (idx + S j) with (S idx + j) by lia.
        split; [done|]. cbn [take]. by rewrite count_images_cons, Hc.
Qed.

(** *** The dicts of an iteration *)

Lemma image_data_display_lookup chunk caption display :
  image_data_display chunk caption = Return display →
  is_image_record display ∧
  display !! "caption" = Some caption ∧
  display !! "image_text" = Some (text_or chunk (PyStr EmptyString)) ∧
  display !! "content" = Some (text_or chunk (PyStr EmptyString)).
Proof.
  unfold image_data_display.
  destruct (metadata chunk) as [md|]; cbn; [|done].
  destruct (image_base64 md) as [payload|]; cbn; [|done].
  destruct (filename md) as [file|]; cbn; [|done].
  intros [= <-]. split; [split|].
  - rewrite !dom_insert_L, dom_empty_L. set_solver.
  - by simplify_map_eq.
  - by simplify_map_eq.
Qed.

(** The payload that the [try] block decodes is the one displayed. *)
Lemma image_data_display_payload chunk caption display :
  image_data_display chunk caption = Return display →
  ∃ md, metadata chunk = Some md ∧ image_base64 md = display !! "base64_image".
Proof.
  unfold image_data_display.
  destruct (metadata chunk) as [md|]; cbn; [|done].
  destruct (image_base64 md) as [payload|] eqn:Hp; cbn; [|done].
  destruct (filename md) as [file|]; cbn; [|done].
  intros [= <-]. exists md. split; [done|]. rewrite Hp. by simplify_map_eq.
Qed.

Lemma described_lookup display a :
  is_image_record display →
  is_image_record (described display a) ∧
  (∀ key, key ≠ "content" → described display a !! key = display !! key) ∧
  described display a !! "content" =
    match a with
    | Some (Response response_text) => Some (PyStr response_text)
    | _ => display !! "content"
    end.
Proof.
  intros [Hdom Htype].
  destruct a as [[t|msg]|]; cbn; try done.
  split; [split|split].
  - rewrite dom_insert_L, Hdom. set_solver.
  - by rewrite lookup_insert_ne.
  - intros key Hkey. by rewrite lookup_insert_ne.
  - by rewrite lookup_insert_eq.
Qed.

Lemma reported_lookup a :
  is_error_record (reported a) ∧
  reported a !! "error" = Some (from_option PyStr PyNone (caught a)) ∧
  reported a !! "error_message" =
    Some (match caught a with Some _ => gemini_error_message | None => PyNone end).
Proof.
  destruct a as [[t|msg]|];
    unfold is_error_record, reported, caught, from_option, error_data_display;
    (split; [rewrite !dom_insert_L, dom_empty_L; set_solver | by simplify_map_eq]).
Qed.

Lemma error_record_not_image_record d : is_error_record d → ¬ is_image_record d.
Proof.
  unfold is_error_record. intros Hd [Himg _]. rewrite Hd in Himg.
  assert (H : "caption" ∈ ({[ "error"; "error_message" ]} : gset string))
    by (rewrite Himg; set_solver).
  set_solver.
Qed.

Lemma iteration_Return raw_chunks use_gemini idx chunk r :
  iteration env raw_chunks use_gemini idx chunk = Some (Return r) →
  element_class_of chunk = Image ∧
  ∃ caption display,
    caption_of raw_chunks idx = Return caption ∧
    image_data_display chunk caption = Return display ∧
    r = {| run_image_data := described display (attempt env use_gemini idx chunk caption);
           run_error_data := reported (attempt env use_gemini idx chunk caption);
           run_caught := caught (attempt env use_gemini idx chunk caption) |}.
Proof.
  unfold iteration.
  destruct (isinstance chunk Image) eqn:Hc; [|done].
  apply isinstance_true in Hc.
  destruct (caption_of raw_chunks idx) as [caption|]; cbn; [|done].
  destruct (image_data_display chunk caption) as [display|] eqn:Hd; cbn; [|done].
  intros [= <-]. split; [done|]. by exists caption, display.
Qed.

(** Every position below the number of Images is the rank of an Image. *)
Lemma image_of_rank raw_chunks :
  ∀ k, k < count_images raw_chunks →
  ∃ i chunk, raw_chunks !! i = Some chunk ∧ element_class_of chunk = Image ∧
             count_images (take i raw_chunks) = k.
Proof.
  induction raw_chunks as [|c rest IH]; intros k Hk; [cbn in Hk; lia|].
  rewrite count_images_cons in Hk.
  destruct (isinstance c Image) eqn:Hc.
  - destruct k as [|k].
    + exists 0, c. by apply isinstance_true in Hc.
    + destruct (IH k) as (i & chunk & Hi & Himg & Hrank); [lia|].
      exists (S i), chunk. cbn [take]. rewrite count_images_cons, Hc.
      repeat split; auto; lia.
  - destruct (IH k) as (i & chunk & Hi & Himg & Hrank); [done|].
    exists (S i), chunk. cbn [take]. by rewrite count_images_cons, Hc.
Qed.

(** *** What a call that returns has done *)

Lemma returned raw_chunks use_gemini m p e m' :
  process_image_with_captions env raw_chunks use_gemini m = (Return (p, e), m') →
  ∃ rs,
    iterations env raw_chunks use_gemini 0 raw_chunks = (rs, None) ∧
    p = entry_locs (length (heap m)) rs ∧
    e = error_locs (length (heap m)) rs ∧
    heap m' = heap m ++ run_dicts rs.
Proof.
  rewrite process_image_with_captions_trace.
  destruct (use_gemini && py_not (GEMINI_API_KEY env)); [done|].
  destruct (iterations env raw_chunks use_gemini 0 raw_chunks) as [rs [x|]]; [done|].
  intros [= <- <- <-]. by exists rs.
Qed.

Lemma returned_image raw_chunks use_gemini m p e m' i chunk :
  process_image_with_captions env raw_chunks use_gemini m = (Return (p, e), m') →
  raw_chunks !! i = Some chunk → element_class_of chunk = Image →
  ∃ caption display,
    caption_of raw_chunks i = Return caption ∧
    image_data_display chunk caption = Return display ∧
    let a := attempt env use_gemini i chunk caption in
    heap m' !! image_data_loc m raw_chunks i = Some (described display a) ∧
    heap m' !! error_data_loc m raw_chunks i = Some (reported a) ∧
    p !! count_images (take i raw_chunks) = Some (error_data_loc m raw_chunks i) ∧
    (error_data_loc m raw_chunks i ∈ e ↔ is_Some (caught a)).
Proof.
  intros (rs & Hrs & -> & -> & Hheap)%returned Hi Himg.
  destruct (iterations_returned _ _ _ _ _ Hrs) as [Hlen Hpos].
  destruct (Hpos i chunk Hi Himg) as (r & Hr & Hk). cbn in Hr.
  apply iteration_Return in Hr as (_ & caption & display & Hcap & Hdisp & ->).
  exists caption, display. split; [done|]. split; [done|].
  destruct (run_dicts_lookup _ _ _ Hk) as [Himage Herror]. cbn in Himage, Herror.
  unfold image_data_loc, error_data_loc. rewrite Hheap.
  cbn zeta. repeat split.
  - by rewrite lookup_app_r, Nat.add_sub' by lia.
  - rewrite lookup_app_r by lia.
    by replace (_ + _ + 1 - _) with (2 * count_images (take i raw_chunks) + 1) by lia.
  - apply entry_locs_lookup. split; [|done]. by apply lookup_lt_Some in Hk.
  - intros (k' & r' & Hk' & Hc & Heq)%error_locs_elem.
    assert (k' = count_images (take i raw_chunks)) as -> by lia.
    rewrite Hk in Hk'. by injection Hk' as <-.
  - intros Hc. apply error_locs_elem. eauto.
Qed.

Lemma returned_entries raw_chunks use_gemini m p e m' :
  process_image_with_captions env raw_chunks use_gemini m = (Return (p, e), m') →
  length p = count_images raw_chunks ∧
  e `sublist_of` p ∧ NoDup p ∧
  length (heap m') = length (heap m) + 2 * count_images raw_chunks ∧
  (∀ l, l < length (heap m) → heap m' !! l = heap m !! l) ∧
  ∀ k l, p !! k = Some l ↔
    k < count_images raw_chunks ∧ l = length (heap m) + 2 * k + 1.
Proof.
  intros (rs & Hrs & -> & -> & Hheap)%returned.
  destruct (iterations_returned _ _ _ _ _ Hrs) as [Hlen _].
  rewrite <- Hlen.
  split; [apply length_entry_locs|].
  split; [apply error_locs_sublist|].
  split; [apply entry_locs_NoDup|].
  split; [rewrite Hheap, length_app, length_run_dicts; lia|].
  split; [intros l Hl; rewrite Hheap; by apply lookup_app_l|].
  intros k l. apply entry_locs_lookup.
Qed.

Lemma iterations_records raw_chunks use_gemini rest :
  ∀ idx rs x, iterations env raw_chunks use_gemini idx rest = (rs, x) →
  Forall (fun r => is_image_record (run_image_data r) ∧
                   is_error_record (run_error_data r)) rs.
Proof.
  induction rest as [|c rest IH]; intros idx rs x Hrs; cbn in Hrs.
  - injection Hrs as <- _. constructor.
  - destruct (iteration env raw_chunks use_gemini idx c) as [[r|y]|] eqn:Hit.
    + destruct (iterations env raw_chunks use_gemini (S idx) rest) as [rs' x'] eqn:Hrest.
      injection Hrs as <- _.
      constructor; [|by eapply IH].
      apply iteration_Return in Hit as (_ & caption & display & _ & Hdisp & ->).
      apply image_data_display_lookup in Hdisp as [Hrec _]. cbn.
      split; [by apply described_lookup | apply reported_lookup].
    + injection Hrs as <- _. constructor.
    + by eapply IH.
Qed.

Lemma count_image_records rs :
  Forall (fun r => is_image_record (run_image_data r) ∧
                   is_error_record (run_error_data r)) rs →
  length (filter is_image_record (run_dicts rs)) = length rs.
Proof.
  induction 1 as [|r rs [Himage Herror] _ IH]; [done|].
  cbn [run_dicts].
  rewrite filter_cons_True by done.
  rewrite filter_cons_False by by apply error_record_not_image_record.
  cbn. by rewrite IH.
Qed.

(** *** Calls that return *)

Lemma iterations_total raw_chunks use_gemini rest :
  ∀ idx,
  (∀ j chunk, rest !! j = Some chunk → element_class_of chunk = Image →
     ∃ r, iteration env raw_chunks use_gemini (idx + j) chunk = Some (Return r)) →
  ∃ rs, iterations env raw_chunks use_gemini idx rest = (rs, None).
Proof.
  induction rest as [|c rest IH]; intros idx Hall; cbn.
  - by exists [].
  - destruct (IH (S idx)) as [rs Hrs].
    { intros j chunk Hj Himg. replace (S idx + j) with (idx + S j) by lia.
      by apply Hall. }
    rewrite Hrs.
    destruct (iteration env raw_chunks use_gemini idx c) as [[r|x]|] eqn:Hit.
    + by exists (r :: rs).
    + destruct (Hall 0 c) as [r Hr]; [done| |].
      * unfold iteration in Hit. destruct (isinstance c Image) eqn:Hc; [|done].
        by apply isinstance_true.
      * rewrite Nat.add_0_r in Hr. congruence.
    + by exists rs.
Qed.

Lemma iteration_well_formed raw_chunks use_gemini i chunk :
  well_formed raw_chunks →
  raw_chunks !! i = Some chunk → element_class_of chunk = Image →
  ∃ r, iteration env raw_chunks use_gemini i chunk = Some (Return r).
Proof.
  intros Hwf Hi Himg.
  destruct (Hwf i chunk Hi Himg) as [(md & Hmd & [payload Hp] & [file Hf]) Hnext].
  unfold iteration. apply isinstance_true in Himg. rewrite Himg.
  assert (∃ caption, caption_of raw_chunks i = Return caption) as [caption ->].
  { unfold caption_of, next_is_caption, subscript.
    destruct (raw_chunks !! (i + 1)) as [next|] eqn:Hn.
    - destruct (isinstance next FigureCaption) eqn:Hc.
      + apply isinstance_true in Hc. destruct (Hnext next eq_refl Hc) as [t Ht].
        rewrite andb_true_r. case_bool_decide; cbn; [|by eexists].
        rewrite Ht. by eexists.
      + rewrite andb_false_r. by eexists.
    - rewrite andb_false_r. by eexists. }
  cbn. unfold image_data_display. rewrite Hmd. cbn. rewrite Hp. cbn. rewrite Hf. cbn.
  by eexists.
Qed.

(** On well-formed elements the call returns, provided the credential
    is there when remote description is enabled: no failure of the
    decoder or of the service makes it raise. *)
Lemma returns_on_well_formed raw_chunks use_gemini m :
  well_formed raw_chunks →
  use_gemini && py_not (GEMINI_API_KEY env) = false →
  ∃ p e m', process_image_with_captions env raw_chunks use_gemini m = (Return (p, e), m').
Proof.
  intros Hwf Hkey.
  rewrite process_image_with_captions_trace, Hkey.
  destruct (iterations_total raw_chunks use_gemini raw_chunks 0) as [rs ->].
  { intros j chunk Hj Himg. by apply iteration_well_formed. }
  by eexists _, _, _.
Qed.

(** *** The claims on [process_image_with_captions] *)

(** C1: in every call that returns, with remote description enabled or
    not, the entry of the processed-images list for an Image element is
    the location of its error record, a dict with exactly the fields
    [error] and [error_message]; the image record built for the element
    sits at another location, which neither returned list holds. The
    list has one such entry per Image. *)
Theorem processed_entry_is_error_record raw_chunks use_gemini m p e m' i chunk :
  process_image_with_captions env raw_chunks use_gemini m = (Return (p, e), m') →
  raw_chunks !! i = Some chunk → element_class_of chunk = Image →
  length p = count_images raw_chunks ∧
  ∃ image_data error_data,
    heap m' !! image_data_loc m raw_chunks i = Some image_data ∧
    is_image_record image_data ∧
    image_data !! "image_text" = Some (text_or chunk (PyStr EmptyString)) ∧
    heap m' !! error_data_loc m raw_chunks i = Some error_data ∧
    is_error_record error_data ∧
    (¬ is_image_record error_data) ∧
    p !! count_images (take i raw_chunks) = Some (error_data_loc m raw_chunks i) ∧
    (image_data_loc m raw_chunks i ∉ p) ∧ (image_data_loc m raw_chunks i ∉ e).
Proof.
  intros Hrun Hi Himg.
  destruct (returned_entries _ _ _ _ _ _ Hrun) as (Hlen & Hsub & _ & _ & _ & Hp).
  destruct (returned_image _ _ _ _ _ _ _ _ Hrun Hi Himg)
    as (caption & display & _ & Hdisp & Himage & Herror & Hentry & _).
  apply image_data_display_lookup in Hdisp as (Hrec & _ & Htext & _).
  split; [done|].
  eexists _, _.
  split; [exact Himage|]. split; [by apply described_lookup|].
  split.
  { destruct (described_lookup display (attempt env use_gemini i chunk caption) Hrec)
      as (_ & Hsame & _).
    by rewrite Hsame. }
  split; [exact Herror|]. split; [apply reported_lookup|].
  split; [apply error_record_not_image_record, reported_lookup|].
  split; [exact Hentry|].
  assert (Hnot : image_data_loc m raw_chunks i ∉ p).
  { intros (k & Hk)%list_elem_of_lookup_1. apply Hp in Hk as [_ Hk].
    unfold image_data_loc in Hk. lia. }
  split; [done|].
  intros Hin. apply Hnot. by eapply elem_of_sublist.
Qed.

(** C3, as the code has it: an Image with no following element, or
    followed by an element that is not a FigureCaption, gets the caption
    ["No caption available"] (capital N), and that is the caption of the
    image record the call builds for it. *)
Theorem caption_defaults_to_sentinel raw_chunks use_gemini m p e m' i chunk :
  process_image_with_captions env raw_chunks use_gemini m = (Return (p, e), m') →
  raw_chunks !! i = Some chunk → element_class_of chunk = Image →
  (raw_chunks !! (i + 1) = None ∨
   ∃ next, raw_chunks !! (i + 1) = Some next ∧ element_class_of next ≠ FigureCaption) →
  caption_of raw_chunks i = Return (PyStr "No caption available") ∧
  ∃ image_data,
    heap m' !! image_data_loc m raw_chunks i = Some image_data ∧
    image_data !! "caption" = Some (PyStr "No caption available").
Proof.
  intros Hrun Hi Himg Hnext.
  assert (Hcap : caption_of raw_chunks i = Return (PyStr "No caption available")).
  { unfold caption_of, next_is_caption.
    destruct Hnext as [Hnone|(next & Hnext & Hclass)].
    - rewrite Hnone. by rewrite andb_false_r.
    - rewrite Hnext. unfold isinstance.
      by rewrite (bool_decide_eq_false_2 _ Hclass), andb_false_r. }
  split; [done|].
  destruct (returned_image _ _ _ _ _ _ _ _ Hrun Hi Himg)
    as (caption & display & Hcap' & Hdisp & Himage & _).
  rewrite Hcap in Hcap'. injection Hcap' as <-.
  apply image_data_display_lookup in Hdisp as (Hrec & Hcaption & _).
  eexists. split; [exact Himage|].
  destruct (described_lookup display (attempt env use_gemini i chunk no_caption) Hrec)
    as (_ & Hsame & _).
  by rewrite Hsame.
Qed.

(** C4: an Image at position [i] whose next element is a FigureCaption
    gets that element's text as its caption, unchanged, and that is the
    caption of the image record the call builds for it. *)
Theorem caption_is_text_of_next raw_chunks use_gemini m p e m' i chunk next t :
  process_image_with_captions env raw_chunks use_gemini m = (Return (p, e), m') →
  raw_chunks !! i = Some chunk → element_class_of chunk = Image →
  raw_chunks !! (i + 1) = Some next → element_class_of next = FigureCaption →
  text next = Some t →
  caption_of raw_chunks i = Return t ∧
  ∃ image_data,
    heap m' !! image_data_loc m raw_chunks i = Some image_data ∧
    image_data !! "caption" = Some t.
Proof.
  intros Hrun Hi Himg Hnext Hclass Htext.
  assert (Hcap : caption_of raw_chunks i = Return t).
  { unfold caption_of, next_is_caption, subscript.
    rewrite Hnext. apply lookup_lt_Some in Hnext as Hlt.
    rewrite (bool_decide_eq_true_2 _ Hlt).
    apply isinstance_true in Hclass. rewrite Hclass. cbn.
    by rewrite Htext. }
  split; [done|].
  destruct (returned_image _ _ _ _ _ _ _ _ Hrun Hi Himg)
    as (caption & display & Hcap' & Hdisp & Himage & _).
  rewrite Hcap in Hcap'. injection Hcap' as <-.
  apply image_data_display_lookup in Hdisp as (Hrec & Hcaption & _).
  eexists. split; [exact Himage|].
  destruct (described_lookup display (attempt env use_gemini i chunk t) Hrec)
    as (_ & Hsame & _).
  by rewrite Hsame.
Qed.

Lemma try_describe_payload idx chunk caption display payload :
  image_data_display chunk caption = Return display →
  display !! "base64_image" = Some payload →
  try_describe env idx chunk caption =
  match b64decode env payload with
  | inr message => Caught message
  | inl image_binary => generate_content env idx (prompt caption chunk) image_binary
  end.
Proof.
  intros (md & Hmd & Hp)%image_data_display_payload Hpayload.
  unfold try_describe. rewrite Hmd. cbn. rewrite Hp, Hpayload. done.
Qed.

(** C7: with remote description enabled, when the decoding of the
    payload of an Image raises, or the remote call does, with message
    [msg], the iteration does not raise: it returns, having appended the
    location of one new error record, holding [msg] and the fixed
    context string, to the error collection (and to the processed
    images), with the image record left as displayed, its content the
    text of the image (or the empty string); the loop goes on with the
    next position; and on a document where no attribute is missing the
    whole call returns, with that error record once in the errors list
    and an entry for every Image of the document. *)
Theorem caught_failure_is_recorded raw_chunks idx chunk caption display payload msg :
  element_class_of chunk = Image →
  caption_of raw_chunks idx = Return caption →
  image_data_display chunk caption = Return display →
  display !! "base64_image" = Some payload →
  (b64decode env payload = inr msg ∨
   ∃ image_binary,
     b64decode env payload = inl image_binary ∧
     generate_content env idx (prompt caption chunk) image_binary = Caught msg) →
  ∃ error_data,
    error_data !! "error" = Some (PyStr msg) ∧
    error_data !! "error_message" =
      Some (PyStr "Error generating description with Gemini.") ∧
    is_error_record error_data ∧
    display !! "content" = Some (text_or chunk (PyStr EmptyString)) ∧
    (∀ p e m,
       process_chunk env raw_chunks true idx chunk p e m =
       (Return (p ++ [S (length (heap m))], e ++ [S (length (heap m))]),
        {| heap := heap m ++ [display; error_data];
           stdout := stdout m ++ ["Warning: Error generating description: " +:+ msg] |})) ∧
    (∀ rest p e m,
       for_loop env raw_chunks true idx (chunk :: rest) p e m =
       for_loop env raw_chunks true (S idx) rest
         (p ++ [S (length (heap m))]) (e ++ [S (length (heap m))])
         {| heap := heap m ++ [display; error_data];
            stdout := stdout m ++ ["Warning: Error generating description: " +:+ msg] |}) ∧
    (∀ m, raw_chunks !! idx = Some chunk → well_formed raw_chunks →
       py_not (GEMINI_API_KEY env) = false →
       ∃ p e m',
         process_image_with_captions env raw_chunks true m = (Return (p, e), m') ∧
         length p = count_images raw_chunks ∧
         heap m' !! image_data_loc m raw_chunks idx = Some display ∧
         heap m' !! error_data_loc m raw_chunks idx = Some error_data ∧
         p !! count_images (take idx raw_chunks) = Some (error_data_loc m raw_chunks idx) ∧
         error_data_loc m raw_chunks idx ∈ e ∧ NoDup e).
Proof.
  intros Himg Hcap Hdisp Hpayload Hraise.
  assert (Htry : try_describe env idx chunk caption = Caught msg).
  { rewrite (try_describe_payload _ _ _ _ _ Hdisp Hpayload).
    destruct Hraise as [->|(image_binary & -> & ->)]; done. }
  pose proof (reported_lookup (Some (Caught msg))) as (Hrec & Herr & Hmsg).
  exists (reported (Some (Caught msg))).
  split; [exact Herr|]. split; [exact Hmsg|]. split; [exact Hrec|].
  split; [by apply image_data_display_lookup in Hdisp as (_ & _ & _ & ?)|].
  assert (Hstep : ∀ p e m,
    process_chunk env raw_chunks true idx chunk p e m =
    (Return (p ++ [S (length (heap m))], e ++ [S (length (heap m))]),
     {| heap := heap m ++ [display; reported (Some (Caught msg))];
        stdout := stdout m ++ ["Warning: Error generating description: " +:+ msg] |})).
  { intros p e m. rewrite process_chunk_iteration. unfold iteration.
    pose proof Himg as Hinst. apply isinstance_true in Hinst.
    rewrite Hinst, Hcap. cbn. rewrite Hdisp. cbn. unfold attempt. by rewrite Htry. }
  split; [exact Hstep|]. split.
  { intros rest p e m. cbn [for_loop]. unfold mbind at 1, M_bind at 1.
    by rewrite Hstep. }
  intros m Hidx Hwf Hkey.
  destruct (returns_on_well_formed raw_chunks true m Hwf) as (p & e & m' & Hrun);
    [by rewrite Hkey|].
  exists p, e, m'. split; [exact Hrun|].
  destruct (returned_entries _ _ _ _ _ _ Hrun) as (Hlen & Hsub & Hnodup & _).
  destruct (returned_image _ _ _ _ _ _ _ _ Hrun Hidx Himg)
    as (caption' & display' & Hcap' & Hdisp' & Himage & Herror & Hentry & Hin).
  rewrite Hcap in Hcap'. injection Hcap' as <-.
  rewrite Hdisp in Hdisp'. injection Hdisp' as <-.
  cbn zeta in Himage, Herror, Hin. unfold attempt in Himage, Herror, Hin.
  rewrite Htry in Himage, Herror, Hin.
  split; [exact Hlen|]. split; [exact Himage|]. split; [exact Herror|].
  split; [exact Hentry|].
  split; [apply Hin; by eexists|].
  by eapply sublist_NoDup.
Qed.

(** C8: in a call that returns, the image records built are as many as
    the elements classified as Image; the processed-images list has one
    entry per Image, in order, each entry is the entry of an Image, and
    the errors list is drawn from the entries of the processed-images
    list. *)
Theorem one_entry_per_image raw_chunks use_gemini m p e m' :
  process_image_with_captions env raw_chunks use_gemini m = (Return (p, e), m') →
  length (filter is_image_record (drop (length (heap m)) (heap m'))) =
    count_images raw_chunks ∧
  length p = count_images raw_chunks ∧
  (∀ i chunk, raw_chunks !! i = Some chunk → element_class_of chunk = Image →
     p !! count_images (take i raw_chunks) = Some (error_data_loc m raw_chunks i)) ∧
  (∀ k l, p !! k = Some l →
     ∃ i chunk, raw_chunks !! i = Some chunk ∧ element_class_of chunk = Image ∧
                k = count_images (take i raw_chunks) ∧
                l = error_data_loc m raw_chunks i) ∧
  e `sublist_of` p ∧ NoDup p.
Proof.
  intros Hrun.
  destruct (returned_entries _ _ _ _ _ _ Hrun) as (Hlen & Hsub & Hnodup & _ & _ & Hp).
  split.
  { destruct (returned _ _ _ _ _ _ Hrun) as (rs & Hrs & _ & _ & ->).
    rewrite drop_app_length.
    rewrite count_image_records by by eapply iterations_records.
    by apply iterations_returned in Hrs as [? _]. }
  split; [done|].
  split.
  { intros i chunk Hi Himg.
    by destruct (returned_image _ _ _ _ _ _ _ _ Hrun Hi Himg)
      as (? & ? & _ & _ & _ & _ & ? & _). }
  split; [|done].
  intros k l [Hk ->]%Hp.
  destruct (image_of_rank _ _ Hk) as (i & chunk & Hi & Himg & <-).
  by exists i, chunk.
Qed.

(** C10: in a call that returns, the entry of the processed-images list
    for an Image has [error] and [error_message] both [None] exactly
    when [use_gemini] is false or the [try] block ended with a response;
    when the [try] block raised, the entry holds the message of the
    exception and the fixed string, and the same location is in the
    errors list. *)
Theorem error_fields_of_entry raw_chunks use_gemini m p e m' i chunk :
  process_image_with_captions env raw_chunks use_gemini m = (Return (p, e), m') →
  raw_chunks !! i = Some chunk → element_class_of chunk = Image →
  ∃ caption error_data,
    caption_of raw_chunks i = Return caption ∧
    p !! count_images (take i raw_chunks) = Some (error_data_loc m raw_chunks i) ∧
    heap m' !! error_data_loc m raw_chunks i = Some error_data ∧
    ((error_data !! "error" = Some PyNone ∧ error_data !! "error_message" = Some PyNone)
       ↔ (use_gemini = false ∨ ∃ t, try_describe env i chunk caption = Response t)) ∧
    (∀ msg, use_gemini = true → try_describe env i chunk caption = Caught msg →
       error_data !! "error" = Some (PyStr msg) ∧
       error_data !! "error_message" =
         Some (PyStr "Error generating description with Gemini.") ∧
       error_data_loc m raw_chunks i ∈ e).
Proof.
  intros Hrun Hi Himg.
  destruct (returned_image _ _ _ _ _ _ _ _ Hrun Hi Himg)
    as (caption & display & Hcap & _ & _ & Herror & Hentry & Hin).
  exists caption, (reported (attempt env use_gemini i chunk caption)).
  split; [done|]. split; [done|]. split; [done|].
  destruct (reported_lookup (attempt env use_gemini i chunk caption)) as (_ & Herr & Hmsg).
  rewrite Herr, Hmsg. cbn zeta in Hin. unfold attempt in *.
  destruct use_gemini; cbn.
  - destruct (try_describe env i chunk caption) as [t|msg0]; cbn in *.
    + split; [split; [|done]; intros _; right; by exists t|].
      intros msg _ [=].
    + split.
      * split; [by intros [[=] _]|]. by intros [[=]|[t [=]]].
      * intros msg _ [= <-]. split; [done|]. split; [done|]. apply Hin. by eexists.
  - split; [split; [|done]; by left|]. by intros msg [=].
Qed.

(** *** Calls on sample inputs *)

(** C2 (at its scenario): with remote description disabled, the call on
    an Image with text fig1 and payload AAAA followed by a FigureCaption
    with text [Figure 1: architecture] builds the image record with that
    caption and content fig1 at location 0 and returns no error, but the
    one entry of the list it returns is location 1, the error record,
    which has neither a caption nor a content. *)
Theorem scenario_returns_error_record :
  ∃ image_data out,
    process_image_with_captions env [figure1; figure1_caption] false empty_memory =
      (Return ([1], []), {| heap := [image_data; error_data_display]; stdout := out |}) ∧
    image_data !! "caption" = Some (PyStr "Figure 1: architecture") ∧
    image_data !! "content" = Some (PyStr "fig1") ∧
    error_data_display !! "caption" = None ∧
    error_data_display !! "content" = None.
Proof.
  eexists _, _. split; [vm_compute; reflexivity|].
  by vm_compute.
Qed.

(** C5 (at an element without metadata): an Image that has no
    [metadata] attribute makes the call raise [AttributeError], with
    remote description disabled, before anything is built. *)
Theorem missing_metadata_raises :
  process_image_with_captions env [image_without_metadata] false empty_memory =
    (Raise (AttributeError "Image" "metadata"), empty_memory).
Proof. by vm_compute. Qed.

End Properties.

(** *** The configuration check *)

(** C6: with remote description enabled and no [GEMINI_API_KEY] in the
    environment (unset, or set to the empty string), the call raises the
    [ValueError] of the configuration on every input and leaves the
    memory as it was: no dict has been built, nothing has been printed. *)
Theorem missing_credential_raises_first decode service raw_chunks m :
  process_image_with_captions (with_key decode service None) raw_chunks true m =
    (Raise (ValueError "GEMINI_API_KEY is not set in the environment variables."), m) ∧
  process_image_with_captions (with_key decode service (Some EmptyString))
      raw_chunks true m =
    (Raise (ValueError "GEMINI_API_KEY is not set in the environment variables."), m).
Proof.
  split; rewrite process_image_with_captions_trace; reflexivity.
Qed.

(** C9: [process_tables_with_descriptions] raises the configuration
    error of the image generator when remote description is enabled
    without credential, and in every other case returns [None]; either
    way the memory is left as it was, whatever the input holds. *)
Theorem tables_stub_only_checks_credential decode service raw_chunks use_ollama m :
  (process_tables_with_descriptions (with_key decode service None)
       raw_chunks true use_ollama m = (Raise config_error, m) ∧
   process_image_with_captions (with_key decode service None)
       raw_chunks true m = (Raise config_error, m)) ∧
  (process_tables_with_descriptions (with_key decode service (Some EmptyString))
       raw_chunks true use_ollama m = (Raise config_error, m) ∧
   process_image_with_captions (with_key decode service (Some EmptyString))
       raw_chunks true m = (Raise config_error, m)) ∧
  (∀ c key, process_tables_with_descriptions
       (with_key decode service (Some (String c key)))
       raw_chunks true use_ollama m = (Return PyNone, m)) ∧
  (∀ key, process_tables_with_descriptions (with_key decode service key)
       raw_chunks false use_ollama m = (Return PyNone, m)).
Proof.
  repeat split; try reflexivity;
    rewrite process_image_with_captions_trace; reflexivity.
Qed.

(** *** The claims at the sample document *)

(** The call on the sample document returns [([1; 3], [1])]; C1 at its
    second figure, the last element. *)
Lemma processed_entry_is_error_record_witness :
  process_image_with_captions sample_env sample_chunks true empty_memory =
    (Return ([1; 3], [1]), sample_memory) ∧
  sample_chunks !! 3 = Some figure1 ∧
  element_class_of figure1 = Image ∧
  length [1; 3] = count_images sample_chunks ∧
  ∃ image_data error_data,
    heap sample_memory !! image_data_loc empty_memory sample_chunks 3 = Some image_data ∧
    is_image_record image_data ∧
    image_data !! "image_text" = Some (text_or figure1 (PyStr EmptyString)) ∧
    heap sample_memory !! error_data_loc empty_memory sample_chunks 3 = Some error_data ∧
    is_error_record error_data ∧
    (¬ is_image_record error_data) ∧
    [1; 3] !! count_images (take 3 sample_chunks) =
      Some (error_data_loc empty_memory sample_chunks 3) ∧
    (image_data_loc empty_memory sample_chunks 3 ∉ [1; 3]) ∧
    (image_data_loc empty_memory sample_chunks 3 ∉ [1]).
Proof.
  split; [vm_compute; reflexivity|].
  split; [reflexivity|].
  split; [reflexivity|].
  apply (processed_entry_is_error_record sample_env sample_chunks true
           empty_memory [1; 3] [1] sample_memory 3 figure1);
    [vm_compute; reflexivity | reflexivity | reflexivity].
Defined.

(** C3 as the specification words it: the caption of an Image that
    nothing follows is not the lower-case ["no caption available"]. *)
Lemma lowercase_sentinel_counterexample :
  [figure1] !! 0 = Some figure1 ∧
  element_class_of figure1 = Image ∧
  [figure1] !! (0 + 1) = None ∧
  caption_of [figure1] 0 ≠ Return (PyStr "no caption available") ∧
  ∃ p e m' image_data,
    process_image_with_captions sample_env [figure1] false empty_memory =
      (Return (p, e), m') ∧
    heap m' !! image_data_loc empty_memory [figure1] 0 = Some image_data ∧
    image_data !! "caption" ≠ Some (PyStr "no caption available").
Proof.
  split; [reflexivity|]. split; [reflexivity|]. split; [reflexivity|].
  split; [by vm_compute|].
  eexists _, _, _, _.
  split; [vm_compute; reflexivity|].
  split; [vm_compute; reflexivity|].
  by vm_compute.
Qed.

(** C3, amended, at the last figure of the sample document. *)
Lemma caption_defaults_to_sentinel_witness :
  process_image_with_captions sample_env sample_chunks true empty_memory =
    (Return ([1; 3], [1]), sample_memory) ∧
  sample_chunks !! 3 = Some figure1 ∧
  element_class_of figure1 = Image ∧
  sample_chunks !! (3 + 1) = None ∧
  caption_of sample_chunks 3 = Return (PyStr "No caption available") ∧
  ∃ image_data,
    heap sample_memory !! image_data_loc empty_memory sample_chunks 3 = Some image_data ∧
    image_data !! "caption" = Some (PyStr "No caption available").
Proof.
  split; [vm_compute; reflexivity|].
  split; [reflexivity|].
  split; [reflexivity|].
  split; [reflexivity|].
  apply (caption_defaults_to_sentinel sample_env sample_chunks true
           empty_memory [1; 3] [1] sample_memory 3 figure1);
    [vm_compute; reflexivity | reflexivity | reflexivity | left; reflexivity].
Defined.

(** C4 at the first figure of the sample document and its caption. *)
Lemma caption_is_text_of_next_witness :
  process_image_with_captions sample_env sample_chunks true empty_memory =
    (Return ([1; 3], [1]), sample_memory) ∧
  sample_chunks !! 0 = Some figure1 ∧
  element_class_of figure1 = Image ∧
  sample_chunks !! (0 + 1) = Some figure1_caption ∧
  element_class_of figure1_caption = FigureCaption ∧
  text figure1_caption = Some (PyStr "Figure 1: architecture") ∧
  caption_of sample_chunks 0 = Return (PyStr "Figure 1: architecture") ∧
  ∃ image_data,
    heap sample_memory !! image_data_loc empty_memory sample_chunks 0 = Some image_data ∧
    image_data !! "caption" = Some (PyStr "Figure 1: architecture").
Proof.
  split; [vm_compute; reflexivity|].
  do 5 (split; [reflexivity|]).
  apply (caption_is_text_of_next sample_env sample_chunks true
           empty_memory [1; 3] [1] sample_memory 0 figure1 figure1_caption
           (PyStr "Figure 1: architecture"));
    [vm_compute; reflexivity | reflexivity..].
Defined.

Lemma sample_chunks_well_formed : well_formed sample_chunks.
Proof.
  intros i chunk Hi Himg.
  destruct i as [|[|[|[|i]]]]; cbn in Hi; try done;
    injection Hi as <-; try done.
  - split; [by eexists|].
    intros next [= <-] _. by eexists.
  - split; [by eexists|].
    intros next Hnext. done.
Qed.

(** C7 at the first figure of the sample document, whose request the
    service refuses; the document has no attribute missing and the
    environment holds a key. *)
Lemma caught_failure_is_recorded_witness :
  element_class_of figure1 = Image ∧
  caption_of sample_chunks 0 = Return (PyStr "Figure 1: architecture") ∧
  image_data_display figure1 (PyStr "Figure 1: architecture") = Return figure1_display ∧
  figure1_display !! "base64_image" = Some (PyStr "AAAA") ∧
  (∃ image_binary,
     b64decode sample_env (PyStr "AAAA") = inl image_binary ∧
     generate_content sample_env 0
       (prompt (PyStr "Figure 1: architecture") figure1) image_binary =
       Caught "503 Service Unavailable") ∧
  sample_chunks !! 0 = Some figure1 ∧
  well_formed sample_chunks ∧
  py_not (GEMINI_API_KEY sample_env) = false ∧
  ∃ error_data,
    error_data !! "error" = Some (PyStr "503 Service Unavailable") ∧
    error_data !! "error_message" =
      Some (PyStr "Error generating description with Gemini.") ∧
    is_error_record error_data ∧
    figure1_display !! "content" = Some (text_or figure1 (PyStr EmptyString)) ∧
    (∀ p e m,
       process_chunk sample_env sample_chunks true 0 figure1 p e m =
       (Return (p ++ [S (length (heap m))], e ++ [S (length (heap m))]),
        {| heap := heap m ++ [figure1_display; error_data];
           stdout := stdout m ++
             ["Warning: Error generating description: " +:+ "503 Service Unavailable"] |})) ∧
    (∀ rest p e m,
       for_loop sample_env sample_chunks true 0 (figure1 :: rest) p e m =
       for_loop sample_env sample_chunks true 1 rest
         (p ++ [S (length (heap m))]) (e ++ [S (length (heap m))])
         {| heap := heap m ++ [figure1_display; error_data];
            stdout := stdout m ++
              ["Warning: Error generating description: " +:+ "503 Service Unavailable"] |}) ∧
    (∀ m, sample_chunks !! 0 = Some figure1 → well_formed sample_chunks →
       py_not (GEMINI_API_KEY sample_env) = false →
       ∃ p e m',
         process_image_with_captions sample_env sample_chunks true m = (Return (p, e), m') ∧
         length p = count_images sample_chunks ∧
         heap m' !! image_data_loc m sample_chunks 0 = Some figure1_display ∧
         heap m' !! error_data_loc m sample_chunks 0 = Some error_data ∧
         p !! count_images (take 0 sample_chunks) = Some (error_data_loc m sample_chunks 0) ∧
         error_data_loc m sample_chunks 0 ∈ e ∧ NoDup e).
Proof.
  split; [reflexivity|].
  split; [reflexivity|].
  split; [vm_compute; reflexivity|].
  split; [vm_compute; reflexivity|].
  split; [exists "AAAA"; split; reflexivity|].
  split; [reflexivity|].
  split; [exact sample_chunks_well_formed|].
  split; [reflexivity|].
  apply (caught_failure_is_recorded sample_env sample_chunks 0 figure1
           (PyStr "Figure 1: architecture") figure1_display (PyStr "AAAA")
           "503 Service Unavailable");
    [reflexivity | reflexivity | vm_compute; reflexivity | vm_compute; reflexivity |].
  right. exists "AAAA". split; reflexivity.
Defined.

(** C8 as the specification words it, for every input: with remote
    description enabled and no key, the document of one figure has one
    Image, but the call raises before the loop, no iteration builds an
    image record and no list is returned. *)
Lemma one_entry_per_image_counterexample :
  count_images [figure1] = 1 ∧
  process_image_with_captions (with_key sample_b64decode flaky_service None)
      [figure1] true empty_memory = (Raise config_error, empty_memory) ∧
  length (filter is_image_record
            (drop (length (heap empty_memory))
               (heap (snd (process_image_with_captions
                             (with_key sample_b64decode flaky_service None)
                             [figure1] true empty_memory))))) = 0 ∧
  length (filter is_image_record
            (drop (length (heap empty_memory))
               (heap (snd (process_image_with_captions
                             (with_key sample_b64decode flaky_service None)
                             [figure1] true empty_memory))))) ≠ count_images [figure1] ∧
  ∀ p e m',
    process_image_with_captions (with_key sample_b64decode flaky_service None)
      [figure1] true empty_memory ≠ (Return (p, e), m').
Proof.
  split; [reflexivity|].
  split; [reflexivity|].
  split; [reflexivity|].
  split; [by vm_compute|].
  intros p e m'. by vm_compute.
Qed.

(** C8 at the sample document. *)
Lemma one_entry_per_image_witness :
  process_image_with_captions sample_env sample_chunks true empty_memory =
    (Return ([1; 3], [1]), sample_memory) ∧
  length (filter is_image_record (drop (length (heap empty_memory)) (heap sample_memory))) =
    count_images sample_chunks ∧
  length [1; 3] = count_images sample_chunks ∧
  (∀ i chunk, sample_chunks !! i = Some chunk → element_class_of chunk = Image →
     [1; 3] !! count_images (take i sample_chunks) =
       Some (error_data_loc empty_memory sample_chunks i)) ∧
  (∀ k l, [1; 3] !! k = Some l →
     ∃ i chunk, sample_chunks !! i = Some chunk ∧ element_class_of chunk = Image ∧
                k = count_images (take i sample_chunks) ∧
                l = error_data_loc empty_memory sample_chunks i) ∧
  [1] `sublist_of` [1; 3] ∧ NoDup [1; 3].
Proof.
  split; [vm_compute; reflexivity|].
  apply (one_entry_per_image sample_env sample_chunks true
           empty_memory [1; 3] [1] sample_memory).
  vm_compute; reflexivity.
Defined.

(** C10 at the first figure of the sample document. *)
Lemma error_fields_of_entry_witness :
  process_image_with_captions sample_env sample_chunks true empty_memory =
    (Return ([1; 3], [1]), sample_memory) ∧
  sample_chunks !! 0 = Some figure1 ∧
  element_class_of figure1 = Image ∧
  ∃ caption error_data,
    caption_of sample_chunks 0 = Return caption ∧
    [1; 3] !! count_images (take 0 sample_chunks) =
      Some (error_data_loc empty_memory sample_chunks 0) ∧
    heap sample_memory !! error_data_loc empty_memory sample_chunks 0 = Some error_data ∧
    ((error_data !! "error" = Some PyNone ∧ error_data !! "error_message" = Some PyNone)
       ↔ (true = false ∨ ∃ t, try_describe sample_env 0 figure1 caption = Response t)) ∧
    (∀ msg, true = true → try_describe sample_env 0 figure1 caption = Caught msg →
       error_data !! "error" = Some (PyStr msg) ∧
       error_data !! "error_message" =
         Some (PyStr "Error generating description with Gemini.") ∧
       error_data_loc empty_memory sample_chunks 0 ∈ [1]).
Proof.
  split; [vm_compute; reflexivity|].
  split; [reflexivity|].
  split; [reflexivity|].
  apply (error_fields_of_entry sample_env sample_chunks true
           empty_memory [1; 3] [1] sample_memory 0 figure1);
    [vm_compute; reflexivity | reflexivity | reflexivity].
Defined.

(** ** Further properties of [process_image_with_captions] *)

Section Further.

Variable env : Environment.

(** *** What the trace of a loop holds *)

Lemma iterations_length raw_chunks use_gemini rest :
  ∀ idx rs x, iterations env raw_chunks use_gemini idx rest = (rs, x) →
  length rs ≤ count_images rest.
Proof.
  induction rest as [|c rest IH]; intros idx rs x Hrs; cbn in Hrs.
  - injection Hrs as <- _. cbn. lia.
  - rewrite count_images_cons.
    destruct (iteration env raw_chunks use_gemini idx c) as [[r|y]|] eqn:Hit.
    + destruct (iterations env raw_chunks use_gemini (S idx) rest) as [rs' x'] eqn:Hrest.
      injection Hrs as <- _. apply IH in Hrest.
      apply iteration_Return in Hit as [Himg _].
      apply isinstance_true in Himg. rewrite Himg. cbn. lia.
    + injection Hrs as <- _. cbn. lia.
    + apply IH in Hrs. lia.
Qed.

Lemma iterations_disabled raw_chunks rest :
  ∀ idx rs x, iterations env raw_chunks false idx rest = (rs, x) →
  Forall (fun r => run_caught r = None) rs.
Proof.
  induction rest as [|c rest IH]; intros idx rs x Hrs; cbn in Hrs.
  - injection Hrs as <- _. constructor.
  - destruct (iteration env raw_chunks false idx c) as [[r|y]|] eqn:Hit.
    + destruct (iterations env raw_chunks false (S idx) rest) as [rs' x'] eqn:Hrest.
      injection Hrs as <- _.
      constructor; [|by eapply IH].
      by apply iteration_Return in Hit as (_ & caption & display & _ & _ & ->).
    + injection Hrs as <- _. constructor.
    + by eapply IH.
Qed.

Lemma nothing_caught rs :
  Forall (fun r => run_caught r = None) rs →
  (∀ base, error_locs base rs = []) ∧ warnings rs = [].
Proof.
  induction 1 as [|r rs Hr _ [IH1 IH2]]; [done|].
  cbn. rewrite Hr. by split.
Qed.

Lemma length_warnings rs :
  ∀ base, length (warnings rs) = length (error_locs base rs).
Proof.
  induction rs as [|r rs IH]; intros base; cbn; [done|].
  destruct (run_caught r); cbn; by rewrite (IH (S (S base))).
Qed.

(** *** The attributes a call needs *)

Lemma caption_of_Raise raw_chunks i x :
  caption_of raw_chunks i = Raise x →
  ∃ next, raw_chunks !! (i + 1) = Some next ∧
          element_class_of next = FigureCaption ∧ text next = None ∧
          x = AttributeError "FigureCaption" "text".
Proof.
  unfold caption_of, next_is_caption, subscript.
  destruct (raw_chunks !! (i + 1)) as [next|]; [|by rewrite andb_false_r].
  destruct (isinstance next FigureCaption) eqn:Hc; [|by rewrite andb_false_r].
  apply isinstance_true in Hc.
  destruct (bool_decide (i + 1 < length raw_chunks)); cbn; [|done].
  destruct (text next) as [t|] eqn:Ht; cbn; [done|].
  rewrite Hc. intros [= <-]. by exists next.
Qed.

Lemma caption_of_Return raw_chunks i caption next :
  caption_of raw_chunks i = Return caption →
  raw_chunks !! (i + 1) = Some next → element_class_of next = FigureCaption →
  text next = Some caption.
Proof.
  unfold caption_of, next_is_caption, subscript.
  intros Hcap Hnext Hc. rewrite Hnext in Hcap.
  apply lookup_lt_Some in Hnext.
  rewrite (bool_decide_eq_true_2 _ Hnext) in Hcap.
  apply isinstance_true in Hc. rewrite Hc in Hcap. cbn in Hcap.
  destruct (text next); cbn in Hcap; congruence.
Qed.

Lemma image_data_display_Raise chunk caption x :
  element_class_of chunk = Image →
  image_data_display chunk caption = Raise x →
  x = AttributeError "Image" "metadata" ∨
  x = AttributeError "ElementMetadata" "image_base64" ∨
  x = AttributeError "ElementMetadata" "filename".
Proof.
  intros Himg. unfold image_data_display. rewrite Himg.
  destruct (metadata chunk) as [md|]; cbn; [|intros [= <-]; by left].
  destruct (image_base64 md) as [payload|]; cbn; [|intros [= <-]; right; by left].
  destruct (filename md) as [file|]; cbn; [done|intros [= <-]; right; by right].
Qed.

Lemma image_data_display_fields chunk caption display :
  image_data_display chunk caption = Return display →
  ∃ md payload file,
    metadata chunk = Some md ∧
    image_base64 md = Some payload ∧ filename md = Some file ∧
    display !! "base64_image" = Some payload ∧
    display !! "filename" = Some file ∧
    display !! "content_type" = Some (PyStr "image").
Proof.
  unfold image_data_display.
  destruct (metadata chunk) as [md|]; cbn; [|done].
  destruct (image_base64 md) as [payload|] eqn:Hp; cbn; [|done].
  destruct (filename md) as [file|] eqn:Hf; cbn; [|done].
  intros [= <-]. exists md, payload, file.
  repeat split; by simplify_map_eq.
Qed.

Lemma iterations_Raise raw_chunks use_gemini rest :
  ∀ idx rs x, iterations env raw_chunks use_gemini idx rest = (rs, Some x) →
  ∃ cls attribute,
    x = AttributeError cls attribute ∧
    attribute ∈ ["text"; "metadata"; "image_base64"; "filename"].
Proof.
  induction rest as [|c rest IH]; intros idx rs x Hrs; cbn in Hrs; [done|].
  destruct (iteration env raw_chunks use_gemini idx c) as [[r|y]|] eqn:Hit.
  - destruct (iterations env raw_chunks use_gemini (S idx) rest) as [rs' x'] eqn:Hrest.
    injection Hrs as _ Hx. subst x'. by eapply IH.
  - injection Hrs as _ Hx. subst y.
    unfold iteration in Hit.
    destruct (isinstance c Image) eqn:Hc; [|done]. apply isinstance_true in Hc.
    destruct (caption_of raw_chunks idx) as [caption|z] eqn:Hcap; cbn in Hit.
    + destruct (image_data_display c caption) as [display|z] eqn:Hd; cbn in Hit; [done|].
      injection Hit as <-.
      destruct (image_data_display_Raise _ _ _ Hc Hd) as [-> | [-> | ->]];
        eexists _, _; (split; [done|]); set_solver.
    + injection Hit as <-.
      apply caption_of_Raise in Hcap as (next & _ & _ & _ & ->).
      eexists _, _. split; [done|]. set_solver.
  - by eapply IH.
Qed.


Lemma iterations_no_image raw_chunks use_gemini rest :
  ∀ idx, count_images rest = 0 →
  iterations env raw_chunks use_gemini idx rest = ([], None).
Proof.
  induction rest as [|c rest IH]; intros idx Hnone; [done|].
  rewrite count_images_cons in Hnone. cbn.
  unfold iteration at 1.
  destruct (isinstance c Image); [cbn in Hnone; lia|].
  apply IH. cbn in Hnone. lia.
Qed.

(** *** Memory *)

(** X1: whatever its outcome, a call only adds to the memory: the dicts
    that were in the heap are still there, unchanged and at their
    locations, the lines printed before are still the first lines, and
    the call has allocated at most two dicts for each Image. *)
Theorem call_extends_memory raw_chunks use_gemini m :
  ∃ new out,
    heap (snd (process_image_with_captions env raw_chunks use_gemini m)) = heap m ++ new ∧
    stdout (snd (process_image_with_captions env raw_chunks use_gemini m)) =
      stdout m ++ out ∧
    length new ≤ 2 * count_images raw_chunks.
Proof.
  rewrite process_image_with_captions_trace.
  destruct (use_gemini && py_not (GEMINI_API_KEY env)).
  - exists [], []. cbn. rewrite !app_nil_r. repeat split; lia.
  - destruct (iterations env raw_chunks use_gemini 0 raw_chunks) as [rs [x|]] eqn:Hrs;
      cbn; eexists _, _; (split; [done|]); (split; [done|]);
      rewrite length_run_dicts; apply iterations_length in Hrs; lia.
Qed.

(** X2: on a document without Image (the empty document too), a call
    that passes the credential check returns two empty lists, builds no
    dict and prints the two counts as 0. *)
Theorem no_image_nothing_built raw_chunks use_gemini m :
  count_images raw_chunks = 0 →
  use_gemini && py_not (GEMINI_API_KEY env) = false →
  process_image_with_captions env raw_chunks use_gemini m =
    (Return ([], []),
     {| heap := heap m;
        stdout := stdout m ++
          [ "Processed 0 images with captions and descriptions";
            "Errors encountered : 0" ] |}).
Proof.
  intros Hnone Hkey.
  rewrite process_image_with_captions_trace, Hkey.
  rewrite iterations_no_image by done.
  cbn. by rewrite app_nil_r.
Qed.

(** *** When a call returns and when it raises *)

(** X3: a call returns exactly when the credential check passes and no
    attribute that the loop reads is missing: every Image has a
    [metadata] holding [image_base64] and [filename], and every
    FigureCaption right after an Image has a [text]. The [text] of an
    Image may be missing, and no failure of the decoder or of the
    service keeps a call from returning. *)
Theorem returns_iff_well_formed raw_chunks use_gemini m :
  (∃ p e m',
     process_image_with_captions env raw_chunks use_gemini m = (Return (p, e), m'))
  ↔ (use_gemini && py_not (GEMINI_API_KEY env) = false ∧ well_formed raw_chunks).
Proof.
  split.
  - intros (p & e & m' & Hrun). split.
    + rewrite process_image_with_captions_trace in Hrun.
      by destruct (use_gemini && py_not (GEMINI_API_KEY env)).
    + intros i chunk Hi Himg.
      destruct (returned_image _ _ _ _ _ _ _ _ _ Hrun Hi Himg)
        as (caption & display & Hcap & Hdisp & _).
      split.
      * apply image_data_display_fields in Hdisp
          as (md & payload & file & Hmd & Hp & Hf & _).
        exists md. by rewrite Hp, Hf.
      * intros next Hnext Hc. exists caption. by eapply caption_of_Return.
  - intros [Hkey Hwf]. by apply returns_on_well_formed.
Qed.

(** X4: a call raises only the [ValueError] of the configuration, and
    then with the memory untouched, or the [AttributeError] of one of
    the four attributes read without a guard; the look-ahead at
    [raw_chunks[idx+1]] never raises [IndexError]. *)
Theorem raises_configuration_or_attribute raw_chunks use_gemini m x m' :
  process_image_with_captions env raw_chunks use_gemini m = (Raise x, m') →
  (x = config_error ∧ use_gemini = true ∧ py_not (GEMINI_API_KEY env) = true ∧ m' = m) ∨
  (∃ cls attribute,
     x = AttributeError cls attribute ∧
     attribute ∈ ["text"; "metadata"; "image_base64"; "filename"]).
Proof.
  rewrite process_image_with_captions_trace.
  destruct use_gemini, (py_not (GEMINI_API_KEY env)); cbn [andb].
  1: { intros [= <- <-]. by left. }
  all: destruct (iterations env raw_chunks _ 0 raw_chunks) as [rs [y|]] eqn:Hrs; [|done];
    intros [= <- _]; right; by eapply iterations_Raise.
Qed.

(** *** What the records hold *)

(** X5: with remote description enabled, when the service answers for
    an Image, the content of its image record is the text of the answer,
    its [image_text] is still the text of the element, and its error
    record is not in the errors list. *)
Theorem response_becomes_content raw_chunks m p e m' i chunk caption t :
  process_image_with_captions env raw_chunks true m = (Return (p, e), m') →
  raw_chunks !! i = Some chunk → element_class_of chunk = Image →
  caption_of raw_chunks i = Return caption →
  try_describe env i chunk caption = Response t →
  ∃ image_data,
    heap m' !! image_data_loc m raw_chunks i = Some image_data ∧
    image_data !! "content" = Some (PyStr t) ∧
    image_data !! "image_text" = Some (text_or chunk (PyStr EmptyString)) ∧
    error_data_loc m raw_chunks i ∉ e.
Proof.
  intros Hrun Hi Himg Hcap Htry.
  destruct (returned_image _ _ _ _ _ _ _ _ _ Hrun Hi Himg)
    as (caption' & display & Hcap' & Hdisp & Himage & _ & _ & Hin).
  rewrite Hcap in Hcap'. injection Hcap' as <-.
  cbn zeta in Himage, Hin. unfold attempt in Himage, Hin. rewrite Htry in Himage, Hin.
  apply image_data_display_lookup in Hdisp as (Hrec & _ & Htext & _).
  destruct (described_lookup display (Some (Response t)) Hrec) as (_ & Hsame & Hcontent).
  eexists. split; [exact Himage|]. split; [exact Hcontent|].
  split; [by rewrite Hsame|].
  intros [msg Hmsg]%Hin. done.
Qed.

(** X6: with remote description disabled, a call that returns has an
    empty errors list, has printed nothing but the two counts, and the
    content of every image record is the text of its element, or the
    empty string when the element has no [text]. *)
Theorem disabled_keeps_text raw_chunks m p e m' :
  process_image_with_captions env raw_chunks false m = (Return (p, e), m') →
  e = [] ∧
  stdout m' = stdout m ++
    [ "Processed " +:+ pretty (count_images raw_chunks) +:+
        " images with captions and descriptions";
      "Errors encountered : 0" ] ∧
  ∀ i chunk, raw_chunks !! i = Some chunk → element_class_of chunk = Image →
    ∃ image_data,
      heap m' !! image_data_loc m raw_chunks i = Some image_data ∧
      image_data !! "content" = Some (text_or chunk (PyStr EmptyString)).
Proof.
  intros Hrun. pose proof Hrun as Htrace.
  rewrite process_image_with_captions_trace in Htrace. cbn [andb] in Htrace.
  destruct (iterations env raw_chunks false 0 raw_chunks) as [rs [x|]] eqn:Hrs; [done|].
  destruct (nothing_caught rs) as [Herrors Hwarnings]; [by eapply iterations_disabled|].
  apply iterations_returned in Hrs as [Hlen _].
  cbn zeta in Htrace. rewrite Herrors, Hwarnings, length_entry_locs, Hlen in Htrace.
  injection Htrace as <- <- <-.
  split; [done|]. split; [done|].
  intros i chunk Hi Himg.
  destruct (returned_image _ _ _ _ _ _ _ _ _ Hrun Hi Himg)
    as (caption & display & _ & Hdisp & Himage & _).
  apply image_data_display_lookup in Hdisp as (_ & _ & _ & Hcontent).
  eexists. split; [exact Himage|]. exact Hcontent.
Qed.

Lemma warnings_caught rs :
  warnings rs =
  (fun msg => "Warning: Error generating description: " +:+ msg) <$> omap run_caught rs.
Proof.
  induction rs as [|r rs IH]; [done|].
  cbn. destruct (run_caught r); cbn; by rewrite IH.
Qed.

Lemma iterations_caught raw_chunks use_gemini rest :
  ∀ idx rs x, iterations env raw_chunks use_gemini idx rest = (rs, x) →
  Forall (fun r => ∀ msg, run_caught r = Some msg →
                          run_error_data r !! "error" = Some (PyStr msg)) rs.
Proof.
  induction rest as [|c rest IH]; intros idx rs x Hrs; cbn in Hrs.
  - injection Hrs as <- _. constructor.
  - destruct (iteration env raw_chunks use_gemini idx c) as [[r|y]|] eqn:Hit.
    + destruct (iterations env raw_chunks use_gemini (S idx) rest) as [rs' x'] eqn:Hrest.
      injection Hrs as <- _.
      constructor; [|by eapply IH].
      apply iteration_Return in Hit as (_ & caption & display & _ & _ & ->). cbn.
      intros msg Hmsg.
      destruct (reported_lookup (attempt env use_gemini idx c caption)) as (_ & Herr & _).
      by rewrite Herr, Hmsg.
    + injection Hrs as <- _. constructor.
    + by eapply IH.
Qed.

Lemma error_locs_messages rs :
  Forall (fun r => ∀ msg, run_caught r = Some msg →
                          run_error_data r !! "error" = Some (PyStr msg)) rs →
  ∀ h : list (gmap string value),
  Forall2 (fun msg l => ∃ error_data,
             (h ++ run_dicts rs) !! l = Some error_data ∧
             error_data !! "error" = Some (PyStr msg))
    (omap run_caught rs) (error_locs (length h) rs).
Proof.
  induction 1 as [|r rs Hr _ IH]; intros h; [constructor|].
  cbn [run_dicts].
  change (h ++ run_image_data r :: run_error_data r :: run_dicts rs)
    with (h ++ [run_image_data r; run_error_data r] ++ run_dicts rs).
  rewrite (assoc_L (++)).
  specialize (IH (h ++ [run_image_data r; run_error_data r])).
  replace (length (h ++ [run_image_data r; run_error_data r]))
    with (S (S (length h))) in IH by (rewrite length_app; cbn; lia).
  cbn. destruct (run_caught r) as [msg|] eqn:Hmsg; [|exact IH].
  constructor; [|exact IH].
  exists (run_error_data r). split; [|by apply Hr].
  rewrite lookup_app_l by (rewrite length_app; cbn; lia).
  rewrite lookup_app_r by lia.
  by replace (S (length h) - length h) with 1 by lia.
Qed.

(** X8: a call that returns ends its output with the two counts: the
    number of Image elements of the document and the length of the
    errors list; before them, and after what was printed before the
    call, it has printed one warning for each entry of the errors list,
    in the order of the list, each with the message that the entry holds
    in its [error] field. *)
Theorem report_counts raw_chunks use_gemini m p e m' :
  process_image_with_captions env raw_chunks use_gemini m = (Return (p, e), m') →
  ∃ msgs,
    stdout m' = stdout m ++
      ((fun msg => "Warning: Error generating description: " +:+ msg) <$> msgs) ++
      [ "Processed " +:+ pretty (count_images raw_chunks) +:+
          " images with captions and descriptions";
        "Errors encountered : " +:+ pretty (length e) ] ∧
    Forall2 (fun msg l => ∃ error_data,
               heap m' !! l = Some error_data ∧
               error_data !! "error" = Some (PyStr msg)) msgs e.
Proof.
  rewrite process_image_with_captions_trace.
  destruct (use_gemini && py_not (GEMINI_API_KEY env)); [done|].
  destruct (iterations env raw_chunks use_gemini 0 raw_chunks) as [rs [x|]] eqn:Hrs; [done|].
  pose proof (iterations_caught _ _ _ _ _ _ Hrs) as Hcaught.
  apply iterations_returned in Hrs as [Hlen _].
  cbn zeta. rewrite length_entry_locs, Hlen, warnings_caught.
  intros [= <- <- <-]. exists (omap run_caught rs). split; [done|].
  cbn [heap]. by apply error_locs_messages.
Qed.

(** X9: in a call that returns, the image record of an Image carries the
    payload and the file name of the element's metadata as they are, the
    constant content type [image], and as [image_text] the text of the
    element, or the empty string when it has none. *)
Theorem image_record_fields raw_chunks use_gemini m p e m' i chunk :
  process_image_with_captions env raw_chunks use_gemini m = (Return (p, e), m') →
  raw_chunks !! i = Some chunk → element_class_of chunk = Image →
  ∃ md payload file image_data,
    metadata chunk = Some md ∧
    image_base64 md = Some payload ∧ filename md = Some file ∧
    heap m' !! image_data_loc m raw_chunks i = Some image_data ∧
    image_data !! "base64_image" = Some payload ∧
    image_data !! "filename" = Some file ∧
    image_data !! "content_type" = Some (PyStr "image") ∧
    image_data !! "image_text" = Some (text_or chunk (PyStr EmptyString)).
Proof.
  intros Hrun Hi Himg.
  destruct (returned_image _ _ _ _ _ _ _ _ _ Hrun Hi Himg)
    as (caption & display & _ & Hdisp & Himage & _).
  destruct (image_data_display_fields _ _ _ Hdisp)
    as (md & payload & file & Hmd & Hp & Hf & Hpayload & Hfile & Htype).
  apply image_data_display_lookup in Hdisp as (Hrec & _ & Htext & _).
  destruct (described_lookup display (attempt env use_gemini i chunk caption) Hrec)
    as (_ & Hsame & _).
  exists md, payload, file. eexists.
  split; [done|]. split; [done|]. split; [done|].
  split; [exact Himage|].
  by rewrite !Hsame.
Qed.

(** X10: the errors list of a call that returns holds exactly the error
    records of the Images whose [try] block raised, each once. *)
Theorem errors_are_failed_images raw_chunks use_gemini m p e m' :
  process_image_with_captions env raw_chunks use_gemini m = (Return (p, e), m') →
  NoDup e ∧
  ∀ l, l ∈ e ↔
    ∃ i chunk caption msg,
      raw_chunks !! i = Some chunk ∧ element_class_of chunk = Image ∧
      caption_of raw_chunks i = Return caption ∧
      use_gemini = true ∧
      try_describe env i chunk caption = Caught msg ∧
      l = error_data_loc m raw_chunks i.
Proof.
  intros Hrun.
  destruct (returned_entries _ _ _ _ _ _ _ Hrun) as (_ & Hsub & Hnodup & _ & _ & Hp).
  split; [by eapply sublist_NoDup|].
  intros l. split.
  - intros Hl.
    assert (l ∈ p) as (k & Hk)%list_elem_of_lookup_1 by by eapply elem_of_sublist.
    apply Hp in Hk as [Hk ->].
    destruct (image_of_rank _ _ Hk) as (i & chunk & Hi & Himg & <-).
    destruct (returned_image _ _ _ _ _ _ _ _ _ Hrun Hi Himg)
      as (caption & display & Hcap & _ & _ & _ & _ & Hin).
    cbn zeta in Hin. unfold error_data_loc in Hin.
    destruct (proj1 Hin Hl) as [msg Hmsg].
    unfold attempt in Hmsg. destruct use_gemini; [|done].
    destruct (try_describe env i chunk caption) as [t|msg'] eqn:Htry; [done|].
    by exists i, chunk, caption, msg'.
  - intros (i & chunk & caption & msg & Hi & Himg & Hcap & -> & Htry & ->).
    destruct (returned_image _ _ _ _ _ _ _ _ _ Hrun Hi Himg)
      as (caption' & display & Hcap' & _ & _ & _ & _ & Hin).
    rewrite Hcap in Hcap'. injection Hcap' as <-.
    apply Hin. unfold attempt. rewrite Htry. by eexists.
Qed.

End Further.


(** X7: with remote description disabled the environment plays no part:
    the decoder and the service are not consulted and the key is not
    read, so two environments give the same outcome and the same
    memory. *)
Theorem disabled_ignores_environment env1 env2 raw_chunks m :
  process_image_with_captions env1 raw_chunks false m =
  process_image_with_captions env2 raw_chunks false m.
Proof.
  rewrite !process_image_with_captions_trace. cbn [andb].
  assert (Hsame : ∀ rest idx,
    iterations env1 raw_chunks false idx rest = iterations env2 raw_chunks false idx rest).
  { induction rest as [|c rest IH]; intros idx; [done|].
    cbn [iterations]. by rewrite IH. }
  by rewrite Hsame.
Qed.

(** *** The further properties at sample documents *)

(** X2 at a table followed by a caption. *)
Lemma no_image_nothing_built_witness :
  count_images [a_table; figure1_caption] = 0 ∧
  true && py_not (GEMINI_API_KEY sample_env) = false ∧
  process_image_with_captions sample_env [a_table; figure1_caption] true empty_memory =
    (Return ([], []),
     {| heap := heap empty_memory;
        stdout := stdout empty_memory ++
          [ "Processed 0 images with captions and descriptions";
            "Errors encountered : 0" ] |}).
Proof.
  split; [reflexivity|]. split; [reflexivity|].
  apply (no_image_nothing_built sample_env [a_table; figure1_caption] true empty_memory);
    reflexivity.
Defined.

(** X4 at an Image without metadata. *)
Lemma raises_configuration_or_attribute_witness :
  process_image_with_captions sample_env [image_without_metadata] true empty_memory =
    (Raise (AttributeError "Image" "metadata"), empty_memory) ∧
  ((AttributeError "Image" "metadata" = config_error ∧ true = true ∧
    py_not (GEMINI_API_KEY sample_env) = true ∧ empty_memory = empty_memory) ∨
   (∃ cls attribute,
      AttributeError "Image" "metadata" = AttributeError cls attribute ∧
      attribute ∈ ["text"; "metadata"; "image_base64"; "filename"])).
Proof.
  split; [vm_compute; reflexivity|].
  apply (raises_configuration_or_attribute sample_env [image_without_metadata] true
           empty_memory (AttributeError "Image" "metadata") empty_memory).
  vm_compute; reflexivity.
Defined.

(** X5 at the last figure of the sample document, which the service
    answers. *)
Lemma response_becomes_content_witness :
  process_image_with_captions sample_env sample_chunks true empty_memory =
    (Return ([1; 3], [1]), sample_memory) ∧
  sample_chunks !! 3 = Some figure1 ∧
  element_class_of figure1 = Image ∧
  caption_of sample_chunks 3 = Return no_caption ∧
  try_describe sample_env 3 figure1 no_caption =
    Response "A block diagram of the retrieval pipeline." ∧
  ∃ image_data,
    heap sample_memory !! image_data_loc empty_memory sample_chunks 3 = Some image_data ∧
    image_data !! "content" = Some (PyStr "A block diagram of the retrieval pipeline.") ∧
    image_data !! "image_text" = Some (text_or figure1 (PyStr EmptyString)) ∧
    error_data_loc empty_memory sample_chunks 3 ∉ [1].
Proof.
  split; [vm_compute; reflexivity|].
  do 4 (split; [reflexivity|]).
  apply (response_becomes_content sample_env sample_chunks empty_memory
           [1; 3] [1] sample_memory 3 figure1 no_caption
           "A block diagram of the retrieval pipeline.");
    [vm_compute; reflexivity | reflexivity..].
Defined.

(** X6 at the figure and its caption. *)
Lemma disabled_keeps_text_witness :
  process_image_with_captions sample_env [figure1; figure1_caption] false empty_memory =
    (Return ([1], []),
     snd (process_image_with_captions sample_env [figure1; figure1_caption]
            false empty_memory)) ∧
  ([] : list loc) = [] ∧
  stdout (snd (process_image_with_captions sample_env [figure1; figure1_caption]
                 false empty_memory)) =
    stdout empty_memory ++
    [ "Processed " +:+ pretty (count_images [figure1; figure1_caption]) +:+
        " images with captions and descriptions";
      "Errors encountered : 0" ] ∧
  ∀ i chunk, [figure1; figure1_caption] !! i = Some chunk →
    element_class_of chunk = Image →
    ∃ image_data,
      heap (snd (process_image_with_captions sample_env [figure1; figure1_caption]
                   false empty_memory))
        !! image_data_loc empty_memory [figure1; figure1_caption] i = Some image_data ∧
      image_data !! "content" = Some (text_or chunk (PyStr EmptyString)).
Proof.
  split; [vm_compute; reflexivity|].
  apply (disabled_keeps_text sample_env [figure1; figure1_caption] empty_memory [1] []).
  vm_compute; reflexivity.
Defined.

(** X8 at the sample document. *)
Lemma report_counts_witness :
  process_image_with_captions sample_env sample_chunks true empty_memory =
    (Return ([1; 3], [1]), sample_memory) ∧
  ∃ msgs,
    stdout sample_memory = stdout empty_memory ++
      ((fun msg => "Warning: Error generating description: " +:+ msg) <$> msgs) ++
      [ "Processed " +:+ pretty (count_images sample_chunks) +:+
          " images with captions and descriptions";
        "Errors encountered : " +:+ pretty (length [1]) ] ∧
    Forall2 (fun msg l => ∃ error_data,
               heap sample_memory !! l = Some error_data ∧
               error_data !! "error" = Some (PyStr msg)) msgs [1].
Proof.
  split; [vm_compute; reflexivity|].
  apply (report_counts sample_env sample_chunks true empty_memory [1; 3] [1] sample_memory).
  vm_compute; reflexivity.
Defined.

(** X9 at the first figure of the sample document. *)
Lemma image_record_fields_witness :
  process_image_with_captions sample_env sample_chunks true empty_memory =
    (Return ([1; 3], [1]), sample_memory) ∧
  sample_chunks !! 0 = Some figure1 ∧
  element_class_of figure1 = Image ∧
  ∃ md payload file image_data,
    metadata figure1 = Some md ∧
    image_base64 md = Some payload ∧ filename md = Some file ∧
    heap sample_memory !! image_data_loc empty_memory sample_chunks 0 = Some image_data ∧
    image_data !! "base64_image" = Some payload ∧
    image_data !! "filename" = Some file ∧
    image_data !! "content_type" = Some (PyStr "image") ∧
    image_data !! "image_text" = Some (text_or figure1 (PyStr EmptyString)).
Proof.
  split; [vm_compute; reflexivity|].
  split; [reflexivity|]. split; [reflexivity|].
  apply (image_record_fields sample_env sample_chunks true empty_memory
           [1; 3] [1] sample_memory 0 figure1);
    [vm_compute; reflexivity | reflexivity | reflexivity].
Defined.

(** X10 at the sample document. *)
Lemma errors_are_failed_images_witness :
  process_image_with_captions sample_env sample_chunks true empty_memory =
    (Return ([1; 3], [1]), sample_memory) ∧
  NoDup [1] ∧
  ∀ l, l ∈ [1] ↔
    ∃ i chunk caption msg,
      sample_chunks !! i = Some chunk ∧ element_class_of chunk = Image ∧
      caption_of sample_chunks i = Return caption ∧
      true = true ∧
      try_describe sample_env i chunk caption = Caught msg ∧
      l = error_data_loc empty_memory sample_chunks i.
Proof.
  split; [vm_compute; reflexivity|].
  apply (errors_are_failed_images sample_env sample_chunks true empty_memory
           [1; 3] [1] sample_memory).
  vm_compute; reflexivity.
Defined.


End Chunking.
